(** * Public Works Reporter: the geospatial feature engine

    A shallow embedding of the map screen's proximity engine
    ([calculateDistance], [filterNearbyFeatures], [updateNearbyFeatures],
    [loadGeoJSONData], the per-collection styling of [MapScreen]) and of the
    [GeoJSONLayer] component that turns features into map primitives.

    The source is TypeScript working on values of type [any]; the embedding
    therefore keeps JavaScript values untyped ([value]) and writes each
    run-time test of the source ([!x], [Array.isArray], [typeof], [isNaN],
    [===]) as a function on them.  A property read on [null] or [undefined]
    and a call of a missing method raise [TypeError]; they live in the
    [result] monad, and [try]/[catch] is [catchWith].

    [src/App.tsx] holds two copies of the map screen.  [calculateDistance],
    [filterNearbyFeatures], [updateNearbyFeatures] and the layer styling are
    the same text in both; [loadGeoJSONData] is taken from the first copy,
    the one that queries the [projects] table.  Of the second copy's load
    only the validation of the bundled datasets is embedded
    ([validateDataset]).

    The reports list ([getStatusColor], [getStatusText], [getTypeIcon], the
    statistics row) and the form of the camera screen ([issueTypes],
    [submitReport]) are embedded in the modules [Reports] and [Camera].

    Numbers: a JavaScript number is modelled as [NaN], one of the two
    infinities, or a real number.  Arithmetic on the finite part is exact
    real arithmetic: rounding, overflow and the sign of zero are not
    modelled (zero stands for [+0]). *)

From Stdlib Require Import String Ascii List Bool Arith ZArith Lia DecimalString.
From Stdlib Require Import Reals Lra Psatz.
Import ListNotations.

Set Implicit Arguments.
Set Warnings "-register-all".

(** ** Results and exceptions *)

Inductive error : Type :=
| TypeError
| SyntaxError.

Inductive result (A : Type) : Type :=
| Ok (a : A)
| Throw (e : error).

Arguments Ok {A} a.
Arguments Throw {A} e.

Definition bind {A B : Type} (m : result A) (k : A -> result B) : result B :=
  match m with
  | Ok a => k a
  | Throw e => Throw e
  end.

Notation "x <- m ;; k" := (bind m (fun x => k))
  (at level 61, m at next level, right associativity).

(** [try { body } catch (error) { handler }] *)
Definition catchWith {A : Type} (body : result A) (handler : A) : A :=
  match body with
  | Ok a => a
  | Throw _ => handler
  end.

(** [xs.map(f)] where [f] may throw: the first exception aborts the map. *)
Fixpoint mapM {A B : Type} (f : A -> result B) (xs : list A) : result (list B) :=
  match xs with
  | [] => Ok []
  | x :: rest =>
      y <- f x ;;
      ys <- mapM f rest ;;
      Ok (y :: ys)
  end.

(** [xs.filter(f)] where [f] may throw. *)
Fixpoint filterM {A : Type} (f : A -> result bool) (xs : list A) : result (list A) :=
  match xs with
  | [] => Ok []
  | x :: rest =>
      keep <- f x ;;
      ys <- filterM f rest ;;
      Ok (if keep then x :: ys else ys)
  end.

(** [xs.map((x, index) => f(x, index))], the index counted from [start]. *)
Fixpoint mapiM {A B : Type} (f : A -> nat -> result B) (start : nat) (xs : list A)
  : result (list B) :=
  match xs with
  | [] => Ok []
  | x :: rest =>
      y <- f x start ;;
      ys <- mapiM f (S start) rest ;;
      Ok (y :: ys)
  end.

(** ** JavaScript numbers *)

Inductive number : Type :=
| NaN
| Infinity (negative : bool)
| Num (r : R).

Definition Rneg (r : R) : bool := if Rlt_dec r 0 then true else false.
Definition Rzero (r : R) : bool := if Req_dec_T r 0 then true else false.

Definition isNaN (n : number) : bool :=
  match n with NaN => true | _ => false end.

Definition nadd (a b : number) : number :=
  match a, b with
  | NaN, _ | _, NaN => NaN
  | Infinity s, Infinity t => if Bool.eqb s t then Infinity s else NaN
  | Infinity s, Num _ => Infinity s
  | Num _, Infinity t => Infinity t
  | Num x, Num y => Num (x + y)
  end.

Definition nsub (a b : number) : number :=
  match a, b with
  | NaN, _ | _, NaN => NaN
  | Infinity s, Infinity t => if Bool.eqb s t then NaN else Infinity s
  | Infinity s, Num _ => Infinity s
  | Num _, Infinity t => Infinity (negb t)
  | Num x, Num y => Num (x - y)
  end.

Definition nmul (a b : number) : number :=
  match a, b with
  | NaN, _ | _, NaN => NaN
  | Infinity s, Infinity t => Infinity (xorb s t)
  | Infinity s, Num y => if Rzero y then NaN else Infinity (xorb s (Rneg y))
  | Num x, Infinity t => if Rzero x then NaN else Infinity (xorb (Rneg x) t)
  | Num x, Num y => Num (x * y)
  end.

Definition ndiv (a b : number) : number :=
  match a, b with
  | NaN, _ | _, NaN => NaN
  | Infinity _, Infinity _ => NaN
  | Infinity s, Num y => Infinity (xorb s (Rneg y))
  | Num _, Infinity _ => Num 0
  | Num x, Num y =>
      if Rzero y then (if Rzero x then NaN else Infinity (Rneg x))
      else Num (x / y)
  end.

(** [a <= b]: false as soon as one side is [NaN]. *)
Definition nle (a b : number) : bool :=
  match a, b with
  | NaN, _ | _, NaN => false
  | Infinity true, _ => true
  | _, Infinity false => true
  | Infinity false, _ => false
  | _, Infinity true => false
  | Num x, Num y => if Rle_dec x y then true else false
  end.


Declare Scope js_scope.
Delimit Scope js_scope with js.
Bind Scope js_scope with number.
Infix "+" := nadd : js_scope.
Infix "-" := nsub : js_scope.
Infix "*" := nmul : js_scope.
Infix "/" := ndiv : js_scope.

Module Math.

Definition PI : number := Num Rtrigo1.PI.

Definition sin (a : number) : number :=
  match a with Num x => Num (Rtrigo_def.sin x) | _ => NaN end.

Definition cos (a : number) : number :=
  match a with Num x => Num (Rtrigo_def.cos x) | _ => NaN end.

Definition sqrt (a : number) : number :=
  match a with
  | NaN => NaN
  | Infinity true => NaN
  | Infinity false => Infinity false
  | Num x => if Rneg x then NaN else Num (R_sqrt.sqrt x)
  end.

(** The angle of the point [(x, y)], in [(-PI, PI]]. *)
Definition atan2R (y x : R) : R :=
  if Rzero x then
    (if Rzero y then 0 else if Rneg y then - (Rtrigo1.PI / 2) else Rtrigo1.PI / 2)%R
  else if Rneg x then
    (if Rneg y then Ratan.atan (y / x) - Rtrigo1.PI
     else Ratan.atan (y / x) + Rtrigo1.PI)%R
  else Ratan.atan (y / x).

Definition atan2 (y x : number) : number :=
  match y, x with
  | NaN, _ | _, NaN => NaN
  | Infinity false, Infinity false => Num (Rtrigo1.PI / 4)
  | Infinity false, Infinity true => Num (3 * Rtrigo1.PI / 4)
  | Infinity true, Infinity false => Num (- (Rtrigo1.PI / 4))
  | Infinity true, Infinity true => Num (- (3 * Rtrigo1.PI / 4))
  | Infinity false, Num _ => Num (Rtrigo1.PI / 2)
  | Infinity true, Num _ => Num (- (Rtrigo1.PI / 2))
  | Num _, Infinity false => Num 0
  | Num b, Infinity true => if Rneg b then Num (- Rtrigo1.PI) else Num Rtrigo1.PI
  | Num b, Num a => Num (atan2R b a)
  end.

End Math.

(** ** JavaScript values *)

Inductive value : Type :=
| Undefined
| Null
| Boolean (b : bool)
| Number (n : number)
| Str (s : string)
| Arr (elems : list value)
| Obj (fields : list (string * value)).

(** [!!v] *)
Definition truthy (v : value) : bool :=
  match v with
  | Undefined | Null => false
  | Boolean b => b
  | Number NaN => false
  | Number (Infinity _) => true
  | Number (Num r) => negb (Rzero r)
  | Str s => negb (String.eqb s "")
  | Arr _ | Obj _ => true
  end.

(** [Array.isArray(v)] *)
Definition isArray (v : value) : bool :=
  match v with Arr _ => true | _ => false end.

(** The elements of [v] when it is an array. *)
Definition elements (v : value) : list value :=
  match v with Arr l => l | _ => [] end.

Fixpoint lookup (k : string) (fields : list (string * value)) : option value :=
  match fields with
  | [] => None
  | (k', v) :: rest => if String.eqb k k' then Some v else lookup k rest
  end.

(** [v.k] for a field name [k] other than [length]: a [TypeError] on [null]
    and [undefined], [undefined] on a value without that field. *)
Definition get (v : value) (k : string) : result value :=
  match v with
  | Undefined | Null => Throw TypeError
  | Obj fields =>
      match lookup k fields with
      | Some x => Ok x
      | None => Ok Undefined
      end
  | _ => Ok Undefined
  end.

(** [v[i]] on an array. *)
Definition item (v : value) (i : nat) : value :=
  nth i (elements v) Undefined.

(** [v === 'literal'] *)
Definition isStr (v : value) (literal : string) : bool :=
  match v with Str s => String.eqb s literal | _ => false end.

(** [a || b] *)
Definition orElse (a b : value) : value :=
  if truthy a then a else b.

(** [{...obj, k: v}] on the field list of [obj]: the key keeps its place when
    it is there already and is added at the end otherwise. *)
Fixpoint setField (k : string) (v : value) (fields : list (string * value))
  : list (string * value) :=
  match fields with
  | [] => [(k, v)]
  | (k', v') :: rest =>
      if String.eqb k k' then (k', v) :: rest
      else (k', v') :: setField k v rest
  end.

(** ** src/screens/MapScreen (App.tsx): distance *)

(** [calculateDistance]: the haversine distance in kilometres. *)
Definition calculateDistance (lat1 lon1 lat2 lon2 : number) : number :=
  let R := Num 6371 in
  let dLat := ((lat2 - lat1) * Math.PI / Num 180)%js in
  let dLon := ((lon2 - lon1) * Math.PI / Num 180)%js in
  let a :=
    (Math.sin (dLat / Num 2) * Math.sin (dLat / Num 2) +
     Math.cos (lat1 * Math.PI / Num 180) * Math.cos (lat2 * Math.PI / Num 180) *
     Math.sin (dLon / Num 2) * Math.sin (dLon / Num 2))%js in
  let c := (Num 2 * Math.atan2 (Math.sqrt a) (Math.sqrt (Num 1 - a)))%js in
  (R * c)%js.

(** ** src/screens/MapScreen (App.tsx): the proximity filter *)

(** The [try] block of the filter callback of [filterNearbyFeatures].  [None]
    is one of its [return false]; [Some (featureLat, featureLon)] is the
    fall-through to the distance test, reached only with two numbers that are
    not [NaN]. *)
Definition featureLatLon (feature : value) : result (option (number * number)) :=
  geometry <- get feature "geometry" ;;
  type <- get geometry "type" ;;
  coordinates <- get geometry "coordinates" ;;
  let extracted : option (value * value) :=
    if isStr type "Point" then
      if negb (isArray coordinates) || (length (elements coordinates) <? 2)
      then None
      else Some (item coordinates 1, item coordinates 0)
    else if isStr type "LineString" then
      if negb (isArray coordinates) || (length (elements coordinates) =? 0)
      then None
      else if negb (isArray (item coordinates 0))
              || (length (elements (item coordinates 0)) <? 2)
      then None
      else Some (item (item coordinates 0) 1, item (item coordinates 0) 0)
    else if isStr type "MultiLineString" then
      if negb (isArray coordinates) || (length (elements coordinates) =? 0)
      then None
      else if negb (isArray (item coordinates 0))
              || (length (elements (item coordinates 0)) =? 0)
      then None
      else if negb (isArray (item (item coordinates 0) 0))
              || (length (elements (item (item coordinates 0) 0)) <? 2)
      then None
      else Some (item (item (item coordinates 0) 0) 1,
                 item (item (item coordinates 0) 0) 0)
    else None in
  match extracted with
  | None => Ok None
  | Some (Number featureLat, Number featureLon) =>
      (* typeof featureLat === 'number' && typeof featureLon === 'number' *)
      if isNaN featureLat || isNaN featureLon then Ok None
      else Ok (Some (featureLat, featureLon))
  | Some _ => Ok None
  end.

(** The callback given to [dataset.features.filter]. *)
Definition isNearbyFeature (userLat userLon radiusKm : number) (feature : value)
  : result bool :=
  if negb (truthy feature) then Ok false else
  geometry <- get feature "geometry" ;;
  if negb (truthy geometry) then Ok false else
  coordinates <- get geometry "coordinates" ;;
  if negb (truthy coordinates) then Ok false else
  match catchWith (featureLatLon feature) None with
  | None => Ok false
  | Some (featureLat, featureLon) =>
      let distance := calculateDistance userLat userLon featureLat featureLon in
      Ok (nle distance radiusKm)
  end.

(** [{ type: 'FeatureCollection', features: [] }] *)
Definition emptyCollection : value :=
  Obj [("type", Str "FeatureCollection"); ("features", Arr [])]%string.

(** The fields copied by [...dataset]. *)
Definition fieldsOf (v : value) : list (string * value) :=
  match v with Obj fields => fields | _ => [] end.

(** The callback given to [data.map]. *)
Definition filterDataset (userLat userLon radiusKm : number) (dataset : value)
  : result value :=
  if negb (truthy dataset) then Ok emptyCollection else
  features <- get dataset "features" ;;
  if negb (truthy features) || negb (isArray features) then Ok emptyCollection else
  kept <- filterM (isNearbyFeature userLat userLon radiusKm) (elements features) ;;
  Ok (Obj (setField "features" (Arr kept) (fieldsOf dataset))).

(** [filterNearbyFeatures(data, userLat, userLon, radiusKm)].  [data] has the
    type [any[]] and every caller passes an array, so the guard
    [!data || !Array.isArray(data)] never fires. *)
Definition filterNearbyFeatures (data : list value) (userLat userLon radiusKm : number)
  : result (list value) :=
  mapM (filterDataset userLat userLon radiusKm) data.

(** ** src/screens/MapScreen (App.tsx): the component state *)

Module Region.
Record t : Type := make {
  latitude : number;
  longitude : number;
  latitudeDelta : number;
  longitudeDelta : number
}.
End Region.

(** The [useState] cells of [MapScreen] the engine reads and writes.
    [location] keeps [coords.latitude] and [coords.longitude]. *)
Record MapState : Type := {
  location : option (number * number);
  region : Region.t;
  geoJsonData : list value;
  allGeoJsonData : list value
}.

Definition setLocation (l : option (number * number)) (s : MapState) : MapState :=
  {| location := l; region := region s;
     geoJsonData := geoJsonData s; allGeoJsonData := allGeoJsonData s |}.

Definition setRegion (r : Region.t) (s : MapState) : MapState :=
  {| location := location s; region := r;
     geoJsonData := geoJsonData s; allGeoJsonData := allGeoJsonData s |}.

Definition setGeoJsonData (d : list value) (s : MapState) : MapState :=
  {| location := location s; region := region s;
     geoJsonData := d; allGeoJsonData := allGeoJsonData s |}.

Definition setAllGeoJsonData (d : list value) (s : MapState) : MapState :=
  {| location := location s; region := region s;
     geoJsonData := geoJsonData s; allGeoJsonData := d |}.

Definition initialState : MapState :=
  {| location := None;
     region := Region.make (Num 12.8797) (Num 121.7740) (Num 8.0) (Num 8.0);
     geoJsonData := [];
     allGeoJsonData := [] |}.

(** [updateNearbyFeatures(userLat, userLon)].  The two arguments are tested
    with [typeof] at run time, so they are values here.  The count computed
    for the log line is left out: it reads the fresh result only. *)
Definition updateNearbyFeatures (userLat userLon : value) (s : MapState) : MapState :=
  if length (allGeoJsonData s) =? 0 then s else
  match userLat, userLon with
  | Number lat, Number lon =>
      if isNaN lat || isNaN lon then s
      else
        match filterNearbyFeatures (allGeoJsonData s) lat lon (Num 10) with
        | Ok nearbyData => setGeoJsonData nearbyData s
        | Throw _ => setGeoJsonData [] s
        end
  | _, _ => s (* typeof userLat !== 'number' || typeof userLon !== 'number' *)
  end.

(** ** src/screens/MapScreen (App.tsx): loading *)

(** A row of [select('project_id, name, type, city, barangay, geom, raw')]. *)
Record project : Type := {
  project_id : value;
  name : value;
  type : value;
  city : value;
  barangay : value;
  geom : value;
  raw : value
}.

Definition decimal (n : nat) : string :=
  DecimalString.NilEmpty.string_of_uint (Nat.to_uint n).

Fixpoint characters (s : string) : list value :=
  match s with
  | EmptyString => []
  | String c rest => Str (String c EmptyString) :: characters rest
  end.

(** The own enumerable entries copied by a spread [...v]. *)
Definition ownEntries (v : value) : list (string * value) :=
  match v with
  | Obj fields => fields
  | Arr l => combine (map decimal (seq 0 (length l))) l
  | Str s => combine (map decimal (seq 0 (String.length s))) (characters s)
  | _ => []
  end.

Definition spread (entries : list (string * value)) (fields : list (string * value))
  : list (string * value) :=
  fold_left (fun acc kv => setField (fst kv) (snd kv) acc) entries fields.

(** What ends the asynchronous part of [loadGeoJSONData]. *)
Inductive loadOutcome : Type :=
| MissingEnvironment
| QueryError
| QueryData (projects : option (list project))
| Thrown.

Section Load.

(** [JSON.parse]: the parsed value, or [SyntaxError]. *)
Variable JSON_parse : string -> result value.

(** The callback given to [.map]: the Feature object, or [null] for a text
    geometry that does not parse. *)
Definition toFeature (p : project) : value :=
  let make (geometry : value) : value :=
    Obj [("type", Str "Feature");
         ("geometry", geometry);
         ("properties",
          Obj (spread (ownEntries (raw p))
                 [("project_id", project_id p);
                  ("name", name p);
                  ("type", type p);
                  ("city", city p);
                  ("barangay", barangay p)]))]%string in
  match geom p with
  | Str text =>
      catchWith (geometry <- JSON_parse text ;; Ok (make geometry)) Null
  | geometry => make geometry
  end.

Definition isNull (v : value) : bool :=
  match v with Null => true | _ => false end.

(** [geoJsonFeatures] *)
Definition geoJsonFeatures (projects : list project) : list value :=
  filter (fun feature => negb (isNull feature))
    (map toFeature
       (filter (fun p => truthy (geom p)) projects)).

Definition loadGeoJSONData (outcome : loadOutcome) (s : MapState) : MapState :=
  match outcome with
  | MissingEnvironment | QueryError =>
      setGeoJsonData [] (setAllGeoJsonData [] s)
  | QueryData None | QueryData (Some []) =>
      setGeoJsonData [] (setAllGeoJsonData [] s)
  | QueryData (Some projects) =>
      let data :=
        [Obj [("type", Str "FeatureCollection");
              ("features", Arr (geoJsonFeatures projects))]%string] in
      setGeoJsonData data (setAllGeoJsonData data s)
  | Thrown => setGeoJsonData [] s
  end.

(** The handlers that touch the engine's state. *)
Inductive event : Type :=
| LoadFinished (outcome : loadOutcome)
| LocationObtained (latitude longitude : number)
| CenterOnLocation
| RegionChange (newRegion : Region.t).

Definition getCurrentLocation (latitude longitude : number) (s : MapState) : MapState :=
  let s1 :=
    setRegion (Region.make latitude longitude (Num 0.0922) (Num 0.0421))
      (setLocation (Some (latitude, longitude)) s) in
  if 0 <? length (allGeoJsonData s)
  then updateNearbyFeatures (Number latitude) (Number longitude) s1
  else s1.

Definition centerOnLocation (s : MapState) : MapState :=
  match location s with
  | Some (latitude, longitude) =>
      updateNearbyFeatures (Number latitude) (Number longitude)
        (setRegion (Region.make latitude longitude (Num 0.0922) (Num 0.0421)) s)
  | None => s
  end.

Definition handleRegionChange (newRegion : Region.t) (s : MapState) : MapState :=
  updateNearbyFeatures (Number (Region.latitude newRegion))
    (Number (Region.longitude newRegion)) (setRegion newRegion s).

Definition handle (e : event) (s : MapState) : MapState :=
  match e with
  | LoadFinished outcome => loadGeoJSONData outcome s
  | LocationObtained latitude longitude => getCurrentLocation latitude longitude s
  | CenterOnLocation => centerOnLocation s
  | RegionChange newRegion => handleRegionChange newRegion s
  end.

(** The states the screen can be in: each handler runs to its end on the
    state the previous one left. *)
Inductive reachable : MapState -> Prop :=
| reachable_initial : reachable initialState
| reachable_handle (e : event) (s : MapState) :
    reachable s -> reachable (handle e s).

End Load.

(** ** src/components/GeoJSONLayer.tsx *)

Module Layer.

(** [{ latitude: coord[1], longitude: coord[0] }] *)
Record LatLng : Type := {
  latitude : value;
  longitude : value
}.

(** The [key] props, kept structured: [line-i], [multiline-container-i],
    [multiline-i-j], [point-i], [polygon-i]. *)
Inductive key : Type :=
| line (index : nat)
| multiline_container (index : nat)
| multiline (index lineIndex : nat)
| point (index : nat)
| polygon (index : nat).

(** What the component returns: [null], a [<Polyline>], a [<Marker>] or a
    fragment.  [onPress] is the feature handed to [onFeaturePress]. *)
Inductive element : Type :=
| Nothing
| Polyline (k : key) (coordinates : list LatLng) (strokeColor : string)
    (strokeWidth : Z) (fillColor : option string) (onPress : value)
| Marker (k : key) (coordinate : LatLng) (title description : value)
    (onPress : value)
| Fragment (k : option key) (children : list element).

(** The primitives handed to the map: React drops [null] children and
    flattens fragments. *)
Fixpoint primitives (e : element) : list element :=
  match e with
  | Nothing => []
  | Fragment _ children => flat_map primitives children
  | leaf => [leaf]
  end.

(** [coord && Array.isArray(coord) && coord.length >= 2] *)
Definition isValidCoord (coord : value) : bool :=
  truthy coord && isArray coord && (2 <=? length (elements coord)).

Definition toLatLng (coord : value) : LatLng :=
  {| latitude := item coord 1; longitude := item coord 0 |}.

(** [coords.filter(...).map(...)] on the elements of an array. *)
Definition toCoordinates (coords : list value) : list LatLng :=
  map toLatLng (filter isValidCoord coords).

(** The receiver of a [.filter] or [.map] call: anything but an array has
    no such method. *)
Definition asArray (v : value) : result (list value) :=
  match v with
  | Arr l => Ok l
  | _ => Throw TypeError
  end.

Section Render.

Variable strokeColor : string.
Variable strokeWidth : Z.

(** The callback given to [feature.geometry.coordinates.map] in the
    MultiLineString branch. *)
Definition renderLine (feature : value) (index : nat)
           (lineCoords : value) (lineIndex : nat) : result element :=
  points <- asArray lineCoords ;;
  let coordinates := toCoordinates points in
  if length coordinates =? 0 then Ok Nothing
  else Ok (Polyline (multiline index lineIndex) coordinates
             strokeColor strokeWidth None feature).

(** The callback given to [data.features.map]. *)
Definition renderFeature (feature : value) (index : nat) : result element :=
  if negb (truthy feature) then Ok Nothing else
  geometry <- get feature "geometry" ;;
  if negb (truthy geometry) then Ok Nothing else
  type <- get geometry "type" ;;
  if negb (truthy type) then Ok Nothing else
  coordinates <- get geometry "coordinates" ;;
  if isStr type "LineString" then
    if negb (truthy coordinates) || negb (isArray coordinates) then Ok Nothing
    else
      let coordinates := toCoordinates (elements coordinates) in
      if length coordinates =? 0 then Ok Nothing
      else Ok (Polyline (line index) coordinates strokeColor strokeWidth
                 None feature)
  else if isStr type "MultiLineString" then
    if negb (truthy coordinates) || negb (isArray coordinates) then Ok Nothing
    else
      children <- mapiM (renderLine feature index) 0 (elements coordinates) ;;
      Ok (Fragment (Some (multiline_container index)) children)
  else if isStr type "Point" then
    let coord := coordinates in
    if negb (truthy coord) || negb (isArray coord)
       || (length (elements coord) <? 2)
    then Ok Nothing
    else
      properties <- get feature "properties" ;;
      BR_NAME <- get properties "BR_NAME" ;;
      name <- get properties "name" ;;
      ROAD_NAME <- get properties "ROAD_NAME" ;;
      description <- get properties "description" ;;
      Ok (Marker (point index) (toLatLng coord)
            (orElse (orElse BR_NAME name) (Str "Infrastructure"))
            (orElse (orElse ROAD_NAME description) (Str "DPWH Infrastructure"))
            feature)
  else if isStr type "Polygon" then
    if negb (truthy coordinates) || negb (isArray coordinates)
       || negb (truthy (item coordinates 0))
       || negb (isArray (item coordinates 0))
    then Ok Nothing
    else
      let coordinates := toCoordinates (elements (item coordinates 0)) in
      if length coordinates =? 0 then Ok Nothing
      else Ok (Polyline (polygon index) coordinates strokeColor strokeWidth
                 (Some (strokeColor ++ "20")%string) feature)
  else Ok Nothing.

(** The component.  [data.features.map] on a truthy value that is not an
    array is a [TypeError]. *)
Definition GeoJSONLayer (data : value) : result element :=
  if negb (truthy data) then Ok Nothing else
  features <- get data "features" ;;
  if negb (truthy features) then Ok Nothing else
  items <- asArray features ;;
  children <- mapiM renderFeature 0 items ;;
  Ok (Fragment None children).

End Render.

End Layer.

(** ** src/screens/MapScreen (App.tsx): the layers and their style *)

(** The [strokeColor] prop given to the layer of collection [index]. *)
Definition strokeColorOf (index : nat) : string :=
  match index with
  | 0 => "#FF6B6B"
  | 1 => "#4ECDC4"
  | 2 => "#9B59B6"
  | 3 => "#E67E22"
  | 4 => "#2ECC71"
  | _ => "#F1C40F"
  end.

(** The [strokeWidth] prop: [index === 5 ? 3 : 2]. *)
Definition strokeWidthOf (index : nat) : Z :=
  if index =? 5 then 3%Z else 2%Z.

(** [geoJsonData.map((data, index) => <GeoJSONLayer ... />)] *)
Definition renderLayers (geoJsonData : list value) : result (list Layer.element) :=
  mapiM (fun data index =>
           Layer.GeoJSONLayer (strokeColorOf index) (strokeWidthOf index) data)
    0 geoJsonData.

(** ** The data model of the specification and its GeoJSON encoding *)

Module GeoJSON.

(** A valid coordinate: two finite numbers, longitude first. *)
Record Coordinate : Type := {
  lon : R;
  lat : R
}.

Inductive Geometry : Type :=
| Point (c : Coordinate)
| LineString (cs : list Coordinate)
| MultiLineString (lines : list (list Coordinate))
| Polygon (rings : list (list Coordinate)).

Record Feature : Type := {
  geometry : Geometry;
  properties : list (string * value)
}.

Definition position (c : Coordinate) : value :=
  Arr [Number (Num (lon c)); Number (Num (lat c))].

Definition positions (cs : list Coordinate) : value :=
  Arr (map position cs).

Definition encodeGeometry (g : Geometry) : value :=
  match g with
  | Point c =>
      Obj [("type", Str "Point"); ("coordinates", position c)]
  | LineString cs =>
      Obj [("type", Str "LineString"); ("coordinates", positions cs)]
  | MultiLineString lines =>
      Obj [("type", Str "MultiLineString");
           ("coordinates", Arr (map positions lines))]
  | Polygon rings =>
      Obj [("type", Str "Polygon"); ("coordinates", Arr (map positions rings))]
  end%string.

Definition encodeFeature (f : Feature) : value :=
  Obj [("type", Str "Feature");
       ("geometry", encodeGeometry (geometry f));
       ("properties", Obj (properties f))]%string.

Definition encodeCollection (features : list Feature) : value :=
  Obj [("type", Str "FeatureCollection");
       ("features", Arr (map encodeFeature features))]%string.

(** The representative point of a feature as the proximity rule names it:
    a Point's own coordinate, a LineString's first coordinate, a
    MultiLineString's first line's first coordinate.  No other geometry has
    one. *)
Definition representative (g : Geometry) : option Coordinate :=
  match g with
  | Point c => Some c
  | LineString cs => hd_error cs
  | MultiLineString lines =>
      match hd_error lines with
      | Some first => hd_error first
      | None => None
      end
  | Polygon _ => None
  end.

(** The representative point the specification gives a Polygon: the first
    coordinate of its first (outer) ring. *)
Definition outerRingStart (rings : list (list Coordinate)) : option Coordinate :=
  match hd_error rings with
  | Some outer => hd_error outer
  | None => None
  end.

(** [distance(reference, representative) <= radiusKm] *)
Definition withinRadius (userLat userLon radiusKm : number) (c : Coordinate) : bool :=
  nle (calculateDistance userLat userLon (Num (lat c)) (Num (lon c))) radiusKm.

(** The retention rule: the feature has a representative point and it is
    within the radius. *)
Definition retained (userLat userLon radiusKm : number) (f : Feature) : bool :=
  match representative (geometry f) with
  | Some c => withinRadius userLat userLon radiusKm c
  | None => false
  end.

End GeoJSON.

(** ** Definitions used to state the properties *)

(** The quantity [a] of [calculateDistance] on four finite numbers. *)
Definition haversine (lat1 lon1 lat2 lon2 : R) : R :=
  (sin ((lat2 - lat1) * PI / 180 / 2) * sin ((lat2 - lat1) * PI / 180 / 2) +
   cos (lat1 * PI / 180) * cos (lat2 * PI / 180) *
   sin ((lon2 - lon1) * PI / 180 / 2) * sin ((lon2 - lon1) * PI / 180 / 2))%R.

(** The features of a dataset: the elements of its [features] array, none
    when there is no such array. *)
Definition featuresOf (dataset : value) : list value :=
  match get dataset "features" with
  | Ok features => elements features
  | Throw _ => []
  end.

(** [l1] is [l2] with some elements left out, the others in their order. *)
Inductive Subsequence (A : Type) : list A -> list A -> Prop :=
| Subsequence_nil : Subsequence [] []
| Subsequence_skip (x : A) (l1 l2 : list A) :
    Subsequence l1 l2 -> Subsequence l1 (x :: l2)
| Subsequence_keep (x : A) (l1 l2 : list A) :
    Subsequence l1 l2 -> Subsequence (x :: l1) (x :: l2).

(** Collection by collection, the nearby features are a subsequence of the
    complete ones. *)
Definition Filtered (nearbyData data : list value) : Prop :=
  Forall2 (fun nearby dataset => Subsequence (featuresOf nearby) (featuresOf dataset))
    nearbyData data.

(** Every feature shown in the nearby view ([geoJsonData]) is a feature of
    the complete view ([allGeoJsonData]). *)
Definition nearbyWithinComplete (s : MapState) : Prop :=
  forall dataset feature,
    In dataset (geoJsonData s) -> In feature (featuresOf dataset) ->
    exists original,
      In original (allGeoJsonData s) /\ In feature (featuresOf original).

(** The dataset takes the spreading branch of [filterDataset]: it is an
    object whose [features] is an array. *)
Definition hasFeaturesArray (dataset : value) : bool :=
  match dataset with
  | Obj fields =>
      match lookup "features" fields with
      | Some (Arr _) => true
      | _ => false
      end
  | _ => false
  end.


(** A project leaves no feature: its [geom] is absent, or is a text that
    [JSON.parse] rejects. *)
Definition dropped (JSON_parse : string -> result value) (p : project) : Prop :=
  truthy (geom p) = false \/
  exists text e, geom p = Str text /\ JSON_parse text = Throw e.

(** The coordinate invariant of the data model: latitude in [[-90, 90]],
    longitude in [[-180, 180]]. *)
Definition inRange (c : GeoJSON.Coordinate) : Prop :=
  (-90 <= GeoJSON.lat c <= 90)%R /\ (-180 <= GeoJSON.lon c <= 180)%R.

(** The map vertex of a valid coordinate. *)
Definition latLngOf (c : GeoJSON.Coordinate) : Layer.LatLng :=
  {| Layer.latitude := Number (Num (GeoJSON.lat c));
     Layer.longitude := Number (Num (GeoJSON.lon c)) |}.

(** A line with at least one valid vertex. *)
Definition hasValidVertex (line : list value) : bool :=
  existsb Layer.isValidCoord line.

Definition coordinatesOf (e : Layer.element) : list Layer.LatLng :=
  match e with
  | Layer.Polyline _ coordinates _ _ _ _ => coordinates
  | _ => []
  end.

(** A MultiLineString feature whose lines are arrays of arbitrary values. *)
Definition multiLineString (lines : list (list value))
           (properties : list (string * value)) : value :=
  Obj [("type", Str "Feature");
       ("geometry",
        Obj [("type", Str "MultiLineString");
             ("coordinates", Arr (map Arr lines))]);
       ("properties", Obj properties)]%string.

(** A polyline without fill that reports [feature] when pressed. *)
Definition isPolylineOf (feature : value) (e : Layer.element) : Prop :=
  match e with
  | Layer.Polyline _ _ _ _ fill onPress => fill = None /\ onPress = feature
  | _ => False
  end.

(** A primitive with a stroke has this colour and this width; a marker has
    no stroke. *)
Definition strokedWith (strokeColor : string) (strokeWidth : Z) (e : Layer.element)
  : Prop :=
  match e with
  | Layer.Polyline _ _ color width _ _ => color = strokeColor /\ width = strokeWidth
  | _ => True
  end.

(** The six colours of [MapScreen], in the order of the indices. *)
Definition palette : list string :=
  ["#FF6B6B"; "#4ECDC4"; "#9B59B6"; "#E67E22"; "#2ECC71"; "#F1C40F"]%string.

(** The representative point of a feature, read off its GeoJSON shape, a
    position being [[longitude, latitude, ...]]: the position of a Point,
    the first position of a LineString, the first position of the first line
    of a MultiLineString.  No other feature has one. *)
Inductive representativePoint (feature : value) : number -> number -> Prop :=
| representative_Point (geometry : value) (lon lat : number) (rest : list value) :
    get feature "geometry" = Ok geometry ->
    get geometry "type" = Ok (Str "Point") ->
    get geometry "coordinates" = Ok (Arr (Number lon :: Number lat :: rest)) ->
    representativePoint feature lat lon
| representative_LineString (geometry : value) (lon lat : number)
    (rest others : list value) :
    get feature "geometry" = Ok geometry ->
    get geometry "type" = Ok (Str "LineString") ->
    get geometry "coordinates"
    = Ok (Arr (Arr (Number lon :: Number lat :: rest) :: others)) ->
    representativePoint feature lat lon
| representative_MultiLineString (geometry : value) (lon lat : number)
    (rest others lines : list value) :
    get feature "geometry" = Ok geometry ->
    get geometry "type" = Ok (Str "MultiLineString") ->
    get geometry "coordinates"
    = Ok (Arr (Arr (Arr (Number lon :: Number lat :: rest) :: others) :: lines)) ->
    representativePoint feature lat lon.

(** The feature has a representative point whose distance from the
    reference is [<= radiusKm]. *)
Definition Near (userLat userLon radiusKm : number) (feature : value) : Prop :=
  exists lat lon,
    representativePoint feature lat lon /\
    nle (calculateDistance userLat userLon lat lon) radiusKm = true.

(** What the filter does to one dataset: the kept features are, in their
    order, the features that are near. *)
Definition Retained (userLat userLon radiusKm : number) (nearby dataset : value) : Prop :=
  Subsequence (featuresOf nearby) (featuresOf dataset) /\
  forall feature,
    In feature (featuresOf nearby) <->
    In feature (featuresOf dataset) /\ Near userLat userLon radiusKm feature.

Definition isPolygon (g : GeoJSON.Geometry) : bool :=
  match g with
  | GeoJSON.Polygon _ => true
  | _ => false
  end.

(** A Polygon feature whose rings are arrays of arbitrary values. *)
Definition polygonOf (rings : list (list value))
           (properties : list (string * value)) : value :=
  Obj [("type", Str "Feature");
       ("geometry",
        Obj [("type", Str "Polygon"); ("coordinates", Arr (map Arr rings))]);
       ("properties", Obj properties)]%string.

(** *** Sample data *)

Definition manila : GeoJSON.Coordinate :=
  {| GeoJSON.lon := 120.9842; GeoJSON.lat := 14.5995 |}.

Definition quiapo : GeoJSON.Coordinate :=
  {| GeoJSON.lon := 120.9800; GeoJSON.lat := 14.6050 |}.

Definition bridge : GeoJSON.Feature :=
  {| GeoJSON.geometry := GeoJSON.Point manila;
     GeoJSON.properties := [("BR_NAME", Str "Jones Bridge")]%string |}.

Definition road : GeoJSON.Feature :=
  {| GeoJSON.geometry := GeoJSON.LineString [manila; quiapo];
     GeoJSON.properties := [("ROAD_NAME", Str "Quezon Boulevard")]%string |}.

Definition plazaRings : list (list GeoJSON.Coordinate) :=
  [[manila;
    {| GeoJSON.lon := 120.9852; GeoJSON.lat := 14.5995 |};
    {| GeoJSON.lon := 120.9852; GeoJSON.lat := 14.6005 |};
    manila]].

Definition plaza : GeoJSON.Feature :=
  {| GeoJSON.geometry := GeoJSON.Polygon plazaRings;
     GeoJSON.properties := [("name", Str "Plaza")]%string |}.

(** A dataset that carries a name and no [features] array. *)
Definition namedDataset : value :=
  Obj [("name", Str "roads"); ("features", Null)]%string.

(** A dataset with a [features] array and one more field. *)
Definition bridges : value :=
  Obj [("type", Str "FeatureCollection");
       ("name", Str "bridges");
       ("features", Arr [GeoJSON.encodeFeature bridge])]%string.

(** A coordinate outside the latitude range. *)
Definition offTheMap : GeoJSON.Coordinate :=
  {| GeoJSON.lon := 121; GeoJSON.lat := 95 |}.

(** A row whose geometry is an object with that coordinate. *)
Definition strayProject : project :=
  {| project_id := Number (Num 7);
     name := Str "Stray";
     type := Str "bridge";
     city := Null;
     barangay := Null;
     geom := GeoJSON.encodeGeometry (GeoJSON.Point offTheMap);
     raw := Null |}.

(** A [JSON.parse] that rejects every text. *)
Definition rejectAll (text : string) : result value := Throw SyntaxError.

(** A row whose geometry is the Point of [bridge]. *)
Definition bridgeProject : project :=
  {| project_id := Number (Num 1);
     name := Str "Jones Bridge";
     type := Str "bridge";
     city := Str "Manila";
     barangay := Null;
     geom := GeoJSON.encodeGeometry (GeoJSON.Point manila);
     raw := Obj [("BR_NAME", Str "Jones Bridge")]%string |}.

(** The screen after a load that returned that one row. *)
Definition loadedState : MapState :=
  handle rejectAll (LoadFinished (QueryData (Some [bridgeProject]))) initialState.

(** ** Definitions used to state further properties *)

(** A number that is neither [NaN] nor infinite. *)
Definition isFinite (n : number) : bool :=
  match n with Num _ => true | _ => false end.

(** The answer of the filter callback on a feature. *)
Definition keeps (userLat userLon radiusKm : number) (feature : value) : bool :=
  catchWith (isNearbyFeature userLat userLon radiusKm feature) false.

(** No dataset has a feature left. *)
Definition allEmpty (data : list value) : Prop :=
  Forall (fun dataset => featuresOf dataset = []) data.

(** ** src/screens/MapScreen (App.tsx), second copy: validation of the
    bundled collections *)

(** The callback given to [datasets.map] in the second copy of
    [loadGeoJSONData]: a dataset without a [features] array is replaced by an
    empty collection.  The [name] of each entry is only logged. *)
Definition validateDataset (data : value) : result value :=
  if negb (truthy data) then Ok emptyCollection else
  features <- get data "features" ;;
  if negb (truthy features) || negb (isArray features) then Ok emptyCollection
  else Ok data.

(** [validatedData] *)
Definition validatedData (datasets : list value) : result (list value) :=
  mapM validateDataset datasets.

(** The five columns copied into [properties] before [...project.raw]. *)
Definition columns (p : project) : list (string * value) :=
  [("project_id", project_id p);
   ("name", name p);
   ("type", type p);
   ("city", city p);
   ("barangay", barangay p)]%string.

(** ** Definitions about the layer component *)

(** The feature a primitive reports when pressed. *)
Definition onPressOf (e : Layer.element) : option value :=
  match e with
  | Layer.Polyline _ _ _ _ _ onPress => Some onPress
  | Layer.Marker _ _ _ _ onPress => Some onPress
  | _ => None
  end.

(** The [key] prop of an element; [null] has none. *)
Definition keyOf (e : Layer.element) : option Layer.key :=
  match e with
  | Layer.Nothing => None
  | Layer.Polyline k _ _ _ _ _ => Some k
  | Layer.Marker k _ _ _ _ => Some k
  | Layer.Fragment k _ => k
  end.

(** The keys of the elements of a list of children. *)
Definition keysOf (children : list Layer.element) : list Layer.key :=
  flat_map (fun child => match keyOf child with Some k => [k] | None => [] end)
    children.

(** Siblings have different keys, at every level of the tree. *)
Fixpoint uniqueKeys (e : Layer.element) : Prop :=
  match e with
  | Layer.Fragment _ children =>
      NoDup (keysOf children)
      /\ (fix each (l : list Layer.element) : Prop :=
            match l with
            | [] => True
            | child :: rest => uniqueKeys child /\ each rest
            end) children
  | _ => True
  end.

(** How many primitives a well-formed geometry is drawn with. *)
Definition primitiveCount (g : GeoJSON.Geometry) : nat :=
  match g with
  | GeoJSON.Point _ => 1
  | GeoJSON.LineString [] => 0
  | GeoJSON.LineString (_ :: _) => 1
  | GeoJSON.MultiLineString lines =>
      length (filter (fun line => negb (length line =? 0)) lines)
  | GeoJSON.Polygon ((_ :: _) :: _) => 1
  | GeoJSON.Polygon _ => 0
  end.

(** The features a layer draws, each as many times as it has primitives. *)
Definition pressTargets (features : list GeoJSON.Feature) : list (option value) :=
  flat_map (fun f => repeat (Some (GeoJSON.encodeFeature f))
                       (primitiveCount (GeoJSON.geometry f)))
    features.

(** A marker has a title and a description that are not empty. *)
Definition labelled (e : Layer.element) : Prop :=
  match e with
  | Layer.Marker _ _ title description _ =>
      truthy title = true /\ truthy description = true
  | _ => True
  end.

(** Two shapes of feature the component cannot draw: a Point with two
    coordinates whose [properties] is [null] or missing, and a
    MultiLineString one of whose lines is not an array. *)
Inductive Undrawable (feature : value) : Prop :=
| Undrawable_Point (geometry coordinates properties : value) :
    get feature "geometry" = Ok geometry ->
    get geometry "type" = Ok (Str "Point") ->
    get geometry "coordinates" = Ok coordinates ->
    Layer.isValidCoord coordinates = true ->
    get feature "properties" = Ok properties ->
    properties = Null \/ properties = Undefined ->
    Undrawable feature
| Undrawable_MultiLineString (geometry : value) (lines : list value) (line : value) :
    get feature "geometry" = Ok geometry ->
    get geometry "type" = Ok (Str "MultiLineString") ->
    get geometry "coordinates" = Ok (Arr lines) ->
    In line lines ->
    isArray line = false ->
    Undrawable feature.

(** The index a key ends with: the position of the element among its
    siblings. *)
Definition keyPosition (k : Layer.key) : nat :=
  match k with
  | Layer.line i | Layer.multiline_container i | Layer.point i | Layer.polygon i => i
  | Layer.multiline _ j => j
  end.

(** A primitive reports a feature of the collection. *)
Definition reportsFeatureOf (data : value) (e : Layer.element) : Prop :=
  exists feature, onPressOf e = Some feature /\ In feature (featuresOf data).

(** *** More sample data *)

(** The layer of a collection that holds [bridge] and [road]. *)
Definition sampleLayer : Layer.element :=
  Layer.Fragment None
    [Layer.Marker (Layer.point 0) (latLngOf manila)
       (Str "Jones Bridge") (Str "DPWH Infrastructure")
       (GeoJSON.encodeFeature bridge);
     Layer.Polyline (Layer.line 1) [latLngOf manila; latLngOf quiapo]
       "#2ECC71" 2 None (GeoJSON.encodeFeature road)].

(** A Point feature without [properties]. *)
Definition barePoint : value :=
  Obj [("type", Str "Feature");
       ("geometry", GeoJSON.encodeGeometry (GeoJSON.Point manila))]%string.


(** ** src/screens/MapScreen (App.tsx): report markers *)

(** [getMarkerColor(status)] *)
Definition getMarkerColor (status : string) : string :=
  if (status =? "pending")%string then "#e74c3c"
  else if (status =? "in_progress")%string then "#f39c12"
  else if (status =? "resolved")%string then "#2ecc71"
  else "#95a5a6".

(** ** src/screens/ReportsScreen.tsx *)

Module Reports.

Record Location : Type := {
  latitude : number;
  longitude : number;
  address : option string
}.

(** [interface Report].  At run time [status] is a string like any other. *)
Record Report : Type := {
  id : string;
  title : string;
  description : string;
  type : string;
  status : string;
  imageUrl : option string;
  createdAt : string;
  updatedAt : string;
  location : Location
}.

(** [getStatusColor(status)] *)
Definition getStatusColor (status : string) : string :=
  if (status =? "pending")%string then "#f39c12"
  else if (status =? "in_progress")%string then "#3498db"
  else if (status =? "resolved")%string then "#2ecc71"
  else if (status =? "rejected")%string then "#e74c3c"
  else "#95a5a6".

(** [getStatusText(status)] *)
Definition getStatusText (status : string) : string :=
  if (status =? "pending")%string then "Pending Review"
  else if (status =? "in_progress")%string then "In Progress"
  else if (status =? "resolved")%string then "Resolved"
  else if (status =? "rejected")%string then "Rejected"
  else "Unknown".

(** [getTypeIcon(type)] *)
Definition getTypeIcon (type : string) : string :=
  if (type =? "pothole")%string then "car"
  else if (type =? "streetlight")%string then "bulb"
  else if (type =? "traffic")%string then "traffic-cone"
  else if (type =? "sidewalk")%string then "walk"
  else if (type =? "drainage")%string then "water"
  else "help-circle".

(** [reports.filter(r => r.status === status).length] *)
Definition countWithStatus (wanted : string) (reports : list Report) : nat :=
  length (filter (fun r => (status r =? wanted)%string) reports).

(** The four numbers of the statistics row: Total, Pending, In Progress and
    Resolved. *)
Record Stats : Type := {
  total : nat;
  pending : nat;
  inProgress : nat;
  resolved : nat
}.

Definition stats (reports : list Report) : Stats :=
  {| total := length reports;
     pending := countWithStatus "pending" reports;
     inProgress := countWithStatus "in_progress" reports;
     resolved := countWithStatus "resolved" reports |}.

(** The badge of a report reads neither Pending Review, In Progress nor
    Resolved. *)
Definition otherBadge (r : Report) : bool :=
  (getStatusText (status r) =? "Rejected")%string
  || (getStatusText (status r) =? "Unknown")%string.

End Reports.

(** ** src/screens/CameraScreen.tsx *)

Module Camera.

Record IssueType : Type := {
  id : string;
  name : string;
  icon : string;
  color : string
}.

Definition issueTypes : list IssueType :=
  [ {| id := "pothole"; name := "Pothole"; icon := "car"; color := "#e74c3c" |};
    {| id := "streetlight"; name := "Street Light"; icon := "bulb"; color := "#f39c12" |};
    {| id := "traffic"; name := "Traffic Signal"; icon := "warning"; color := "#3498db" |};
    {| id := "sidewalk"; name := "Sidewalk"; icon := "walk"; color := "#2ecc71" |};
    {| id := "drainage"; name := "Drainage"; icon := "water"; color := "#1abc9c" |};
    {| id := "other"; name := "Other"; icon := "help-circle"; color := "#95a5a6" |} ]%string.

(** What the user types or picks is a JavaScript string: a sequence of
    UTF-16 code units. *)
Definition jsstring : Type := list N.

(** The code units removed by [String.prototype.trim]: WhiteSpace and
    LineTerminator of ECMAScript. *)
Definition isWhiteSpace (c : N) : bool :=
  ((9 <=? c) && (c <=? 13)          (* TAB, LF, VT, FF, CR *)
   || (c =? 32) || (c =? 160)       (* SP, NBSP *)
   || (c =? 5760)                   (* U+1680 *)
   || (8192 <=? c) && (c <=? 8202)  (* U+2000 .. U+200A *)
   || (c =? 8232) || (c =? 8233)    (* U+2028, U+2029 *)
   || (c =? 8239) || (c =? 8287)    (* U+202F, U+205F *)
   || (c =? 12288) || (c =? 65279)  (* U+3000, U+FEFF *)
  )%N.

Fixpoint trimStart (s : jsstring) : jsstring :=
  match s with
  | [] => []
  | c :: rest => if isWhiteSpace c then trimStart rest else s
  end.

Definition trimEnd (s : jsstring) : jsstring := rev (trimStart (rev s)).

(** [s.trim()] *)
Definition trim (s : jsstring) : jsstring := trimEnd (trimStart s).

Inductive CameraType : Type := back | front.

(** The [useState] cells of the screen that its form handlers touch. *)
Record state : Type := {
  facing : CameraType;
  photo : option jsstring;
  showCamera : bool;
  selectedIssueType : jsstring;
  description : jsstring;
  isSubmitting : bool
}.

Definition setPhoto (p : option jsstring) (s : state) : state :=
  {| facing := facing s; photo := p; showCamera := showCamera s;
     selectedIssueType := selectedIssueType s; description := description s;
     isSubmitting := isSubmitting s |}.

Definition setSelectedIssueType (t : jsstring) (s : state) : state :=
  {| facing := facing s; photo := photo s; showCamera := showCamera s;
     selectedIssueType := t; description := description s;
     isSubmitting := isSubmitting s |}.

Definition setDescription (d : jsstring) (s : state) : state :=
  {| facing := facing s; photo := photo s; showCamera := showCamera s;
     selectedIssueType := selectedIssueType s; description := d;
     isSubmitting := isSubmitting s |}.

Definition setIsSubmitting (b : bool) (s : state) : state :=
  {| facing := facing s; photo := photo s; showCamera := showCamera s;
     selectedIssueType := selectedIssueType s; description := description s;
     isSubmitting := b |}.

(** [!s] on a string. *)
Definition isEmpty (s : jsstring) : bool :=
  match s with [] => true | _ => false end.

(** [!photo] on [string | null]. *)
Definition noPhoto (p : option jsstring) : bool :=
  match p with None => true | Some uri => isEmpty uri end.

(** [Alert.alert(title, message, [{ text: 'OK', onPress }])]; an alert
    without buttons gets a plain OK. *)
Record alert : Type := {
  alertTitle : string;
  message : string;
  onPress : option (state -> state)
}.

(** The handler of the OK button of the success alert. *)
Definition resetForm (s : state) : state :=
  setDescription [] (setSelectedIssueType [] (setPhoto None s)).

(** [submitReport], up to its [await]: an alert and an early return, or
    [setIsSubmitting(true)] and the wait. *)
Definition submitReport (s : state) : alert + state :=
  if noPhoto (photo s) then
    inl {| alertTitle := "Missing Photo";
           message := "Please take a photo of the issue";
           onPress := None |}
  else if isEmpty (selectedIssueType s) then
    inl {| alertTitle := "Missing Issue Type";
           message := "Please select the type of issue";
           onPress := None |}
  else if isEmpty (trim (description s)) then
    inl {| alertTitle := "Missing Description";
           message := "Please provide a description of the issue";
           onPress := None |}
  else inr (setIsSubmitting true s).

(** [submitReport], from the end of the wait: the success alert, then the
    [finally] block.  The timer's promise is never rejected, so the [catch]
    block is not entered. *)
Definition submitted (s : state) : alert * state :=
  ({| alertTitle := "Report Submitted";
      message := "Thank you! Your report has been submitted successfully.";
      onPress := Some resetForm |},
   setIsSubmitting false s).

(** Pressing OK on an alert. *)
Definition pressOK (a : alert) (s : state) : state :=
  match onPress a with
  | Some handler => handler s
  | None => s
  end.

(** A filled form, and the code units of [ok]. *)
Definition filledForm : state :=
  {| facing := back; photo := Some [102; 105; 108; 101]%N; showCamera := false;
     selectedIssueType := [111; 116; 104; 101; 114]%N;
     description := [32; 111; 107; 10]%N;
     isSubmitting := false |}.

End Camera.

(** * Properties *)

(** ** Numbers *)

Lemma Rzero_false (r : R) : r <> 0%R -> Rzero r = false.
Proof. unfold Rzero. destruct (Req_dec_T r 0); congruence. Qed.

Lemma Rneg_false (r : R) : (0 <= r)%R -> Rneg r = false.
Proof. unfold Rneg. destruct (Rlt_dec r 0); [lra | reflexivity]. Qed.

Lemma nle_Num (x y : R) : (x <= y)%R -> nle (Num x) (Num y) = true.
Proof. intros H. unfold nle. destruct (Rle_dec x y); [reflexivity | contradiction]. Qed.

Lemma nle_Num_false (x y : R) : (y < x)%R -> nle (Num x) (Num y) = false.
Proof. intros H. unfold nle. destruct (Rle_dec x y); [lra | reflexivity]. Qed.

Lemma nle_refl (d : number) : nle d d = negb (isNaN d).
Proof.
  destruct d as [| [|] | r]; try reflexivity.
  cbn. apply nle_Num. lra.
Qed.


Lemma nadd_NaN_r (x : number) : nadd x NaN = NaN.
Proof. destruct x; reflexivity. Qed.

Lemma nmul_NaN_r (x : number) : nmul x NaN = NaN.
Proof. destruct x; reflexivity. Qed.

(** A [NaN] coordinate makes the distance [NaN]. *)
Lemma calculateDistance_NaN (lat1 lon1 lat2 lon2 : number) :
  isNaN lat2 || isNaN lon2 = true ->
  calculateDistance lat1 lon1 lat2 lon2 = NaN.
Proof.
  intros H. unfold calculateDistance.
  assert (E : (Math.sin ((lat2 - lat1) * Math.PI / Num 180 / Num 2) *
               Math.sin ((lat2 - lat1) * Math.PI / Num 180 / Num 2) +
               Math.cos (lat1 * Math.PI / Num 180) * Math.cos (lat2 * Math.PI / Num 180) *
               Math.sin ((lon2 - lon1) * Math.PI / Num 180 / Num 2) *
               Math.sin ((lon2 - lon1) * Math.PI / Num 180 / Num 2))%js = NaN).
  { destruct lat2 as [| s | lat2]; [reflexivity | |];
      (destruct lon2 as [| t | lon2]; [| discriminate H | discriminate H]);
      cbn [nsub nmul ndiv Math.sin];
      rewrite !nmul_NaN_r; apply nadd_NaN_r. }
  rewrite E. cbn [Math.sqrt Math.atan2]. rewrite !nmul_NaN_r. reflexivity.
Qed.

Lemma sin_not_finite (x : number) (y : R) :
  (forall r, x <> Num r) -> Math.sin (x / Num y) = NaN.
Proof.
  intros H. destruct x as [| s | r]; [reflexivity | reflexivity |].
  exfalso. apply (H r). reflexivity.
Qed.

Lemma mul_div_not_finite (x : number) (p d : R) :
  (forall r, x <> Num r) -> forall r, (x * Num p / Num d)%js <> Num r.
Proof.
  intros H r. destruct x as [| s | x0]; cbn.
  - discriminate.
  - destruct (Rzero p); cbn; discriminate.
  - exfalso. apply (H x0). reflexivity.
Qed.

Lemma sub_Infinity_not_finite (x : number) (s : bool) :
  forall r, (x - Infinity s)%js <> Num r.
Proof.
  intros r. destruct x as [| t | x0]; cbn; try discriminate.
  destruct (Bool.eqb t s); discriminate.
Qed.

(** An infinite reference latitude makes every distance [NaN]. *)
Lemma calculateDistance_Infinity (s : bool) (lon1 lat2 lon2 : number) :
  calculateDistance (Infinity s) lon1 lat2 lon2 = NaN.
Proof.
  unfold calculateDistance, Math.PI.
  rewrite (@sin_not_finite ((lat2 - Infinity s) * Num PI / Num 180)%js 2
             (@mul_div_not_finite _ PI 180 (sub_Infinity_not_finite lat2 s))).
  reflexivity.
Qed.

(** ** The haversine formula over the reals *)

Section Haversine.

Local Open Scope R_scope.

Lemma sin_half_sqr (x : R) : sin (x / 2) * sin (x / 2) = (1 - cos x) / 2.
Proof.
  replace (cos x) with (cos (2 * (x / 2))) by (f_equal; lra).
  rewrite cos_2a_sin. lra.
Qed.

(** Both square roots of [calculateDistance] are taken of a number in
    [[0, 1]], so no [NaN] comes out of finite coordinates. *)
Lemma haversine_range (lat1 lon1 lat2 lon2 : R) :
  0 <= haversine lat1 lon1 lat2 lon2 <= 1.
Proof.
  unfold haversine.
  set (p1 := lat1 * PI / 180). set (p2 := lat2 * PI / 180).
  replace ((lat2 - lat1) * PI / 180) with (p2 - p1) by (unfold p1, p2; lra).
  set (dl := (lon2 - lon1) * PI / 180).
  rewrite sin_half_sqr.
  replace (cos p1 * cos p2 * sin (dl / 2) * sin (dl / 2))
    with (cos p1 * cos p2 * (sin (dl / 2) * sin (dl / 2))) by ring.
  rewrite sin_half_sqr, cos_minus.
  pose proof (sin2_cos2 p1) as H1. pose proof (sin2_cos2 p2) as H2.
  unfold Rsqr in H1, H2.
  pose proof (COS_bound dl) as [Hl Hu].
  remember (cos dl) as u. remember (cos p1) as c1. remember (sin p1) as s1.
  remember (cos p2) as c2. remember (sin p2) as s2.
  clear - H1 H2 Hl Hu.
  pose proof (Rle_0_sqr (s1 - s2)) as Q1. pose proof (Rle_0_sqr (c1 - c2)) as Q2.
  pose proof (Rle_0_sqr (s1 + s2)) as Q3. pose proof (Rle_0_sqr (c1 + c2)) as Q4.
  unfold Rsqr in Q1, Q2, Q3, Q4.
  assert (A1 : s1 * s2 + c1 * c2 <= 1) by nra.
  assert (A2 : -1 <= s1 * s2 + c1 * c2) by nra.
  assert (A3 : s1 * s2 - c1 * c2 <= 1) by nra.
  assert (A4 : -1 <= s1 * s2 - c1 * c2) by nra.
  clear Q1 Q2 Q3 Q4 H1 H2.
  split; nra.
Qed.


Lemma haversine_same (lat lon : R) : haversine lat lon lat lon = 0.
Proof.
  unfold haversine.
  replace ((lat - lat) * PI / 180 / 2) with 0 by lra.
  replace ((lon - lon) * PI / 180 / 2) with 0 by lra.
  rewrite sin_0. ring.
Qed.

Lemma atan2R_0_1 : Math.atan2R 0 1 = 0.
Proof.
  unfold Math.atan2R.
  rewrite (Rzero_false (r := 1)) by lra.
  rewrite (Rneg_false (r := 1)) by lra.
  replace (0 / 1) with 0 by lra.
  apply atan_0.
Qed.

End Haversine.

(** On finite arguments [calculateDistance] is a finite number. *)
Lemma calculateDistance_Num (lat1 lon1 lat2 lon2 : R) :
  calculateDistance (Num lat1) (Num lon1) (Num lat2) (Num lon2) =
  Num (6371 * (2 * Math.atan2R (sqrt (haversine lat1 lon1 lat2 lon2))
                      (sqrt (1 - haversine lat1 lon1 lat2 lon2)))).
Proof.
  pose proof (haversine_range lat1 lon1 lat2 lon2) as [Hlo Hhi].
  unfold calculateDistance, Math.PI. cbn [nsub nmul ndiv nadd].
  rewrite !(Rzero_false (r := 180)) by lra.
  cbn [nsub nmul ndiv nadd].
  rewrite !(Rzero_false (r := 2)) by lra.
  cbn [Math.sin Math.cos nsub nmul ndiv nadd].
  fold (haversine lat1 lon1 lat2 lon2).
  unfold Math.sqrt.
  rewrite (Rneg_false Hlo).
  rewrite Rneg_false by lra.
  reflexivity.
Qed.

Lemma calculateDistance_same (lat lon : R) :
  calculateDistance (Num lat) (Num lon) (Num lat) (Num lon) = Num 0.
Proof.
  rewrite calculateDistance_Num, haversine_same.
  rewrite Rminus_0_r, sqrt_0, sqrt_1, atan2R_0_1.
  f_equal. lra.
Qed.


(** ** The result monad *)

Lemma filterM_total (A : Type) (f : A -> result bool) (xs : list A) :
  (forall x, exists b, f x = Ok b) ->
  filterM f xs = Ok (filter (fun x => catchWith (f x) false) xs).
Proof.
  intros Htotal. induction xs as [| x rest IH]; [reflexivity |].
  cbn [filterM filter]. destruct (Htotal x) as [b Hb].
  rewrite Hb, IH. cbn. destruct b; reflexivity.
Qed.

Lemma filterM_map (A B : Type) (enc : A -> B) (f : B -> result bool) (p : A -> bool)
      (xs : list A) :
  (forall x, f (enc x) = Ok (p x)) ->
  filterM f (map enc xs) = Ok (map enc (filter p xs)).
Proof.
  intros Hf. induction xs as [| x rest IH]; [reflexivity |].
  cbn [map filterM filter]. rewrite Hf, IH. cbn. destruct (p x); reflexivity.
Qed.

Lemma mapM_map (A B C : Type) (enc : A -> B) (f : B -> result C) (g : A -> C)
      (xs : list A) :
  (forall x, f (enc x) = Ok (g x)) ->
  mapM f (map enc xs) = Ok (map g xs).
Proof.
  intros Hf. induction xs as [| x rest IH]; [reflexivity |].
  cbn [map mapM]. rewrite Hf, IH. reflexivity.
Qed.

Lemma mapiM_Forall (A B : Type) (f : A -> nat -> result B) (P : B -> Prop)
      (xs : list A) :
  (forall x i y, f x i = Ok y -> P y) ->
  forall start ys, mapiM f start xs = Ok ys -> Forall P ys.
Proof.
  intros Hf. induction xs as [| x rest IH]; intros start ys; cbn [mapiM].
  - intros H. injection H as <-. constructor.
  - destruct (f x start) as [y |] eqn:Ey; cbn [bind]; [| discriminate].
    destruct (mapiM f (S start) rest) as [ys' |] eqn:Er; cbn [bind]; [| discriminate].
    intros H. injection H as <-. constructor; eauto.
Qed.

Lemma mapiM_nth_error (A B : Type) (f : A -> nat -> result B) (xs : list A) :
  forall start ys i y,
    mapiM f start xs = Ok ys -> nth_error ys i = Some y ->
    exists x, nth_error xs i = Some x /\ f x (start + i) = Ok y.
Proof.
  induction xs as [| x rest IH]; intros start ys i y; cbn [mapiM].
  - intros H. injection H as <-. destruct i; discriminate.
  - destruct (f x start) as [y0 |] eqn:Ey; cbn [bind]; [| discriminate].
    destruct (mapiM f (S start) rest) as [ys' |] eqn:Er; cbn [bind]; [| discriminate].
    intros H. injection H as <-. destruct i as [| i]; cbn [nth_error].
    + intros H. injection H as <-. exists x. rewrite Nat.add_0_r. auto.
    + intros H. destruct (IH _ _ _ _ Er H) as [x' [Hx Hf]].
      exists x'. rewrite Nat.add_succ_r. auto.
Qed.

(** ** Lists and objects *)

Lemma Subsequence_filter (A : Type) (p : A -> bool) (l : list A) :
  Subsequence (filter p l) l.
Proof.
  induction l as [| x l IH]; cbn; [constructor |].
  destruct (p x); constructor; assumption.
Qed.

Lemma Subsequence_nil_l (A : Type) (l : list A) : Subsequence [] l.
Proof. induction l; constructor; assumption. Qed.

Lemma Subsequence_In (A : Type) (l1 l2 : list A) (x : A) :
  Subsequence l1 l2 -> In x l1 -> In x l2.
Proof.
  induction 1; cbn; intros Hin; auto.
  destruct Hin; auto.
Qed.

Lemma Forall_flat_map (A B : Type) (f : A -> list B) (P : B -> Prop) (xs : list A) :
  Forall (fun x => Forall P (f x)) xs -> Forall P (flat_map f xs).
Proof.
  induction 1; cbn [flat_map]; [constructor |].
  apply Forall_app. split; assumption.
Qed.

Lemma get_truthy (v : value) (k : string) :
  truthy v = true -> exists x, get v k = Ok x.
Proof.
  destruct v; cbn; try discriminate; intros _; eauto.
  destruct (lookup k fields); eauto.
Qed.

Lemma lookup_setField_same (k : string) (v : value) (fields : list (string * value)) :
  lookup k (setField k v fields) = Some v.
Proof.
  induction fields as [| [k' v'] rest IH]; cbn.
  - rewrite String.eqb_refl. reflexivity.
  - destruct (String.eqb k k') eqn:E; cbn; rewrite E; [reflexivity | exact IH].
Qed.

Lemma lookup_setField_other (k k' : string) (v : value) (fields : list (string * value)) :
  k' <> k -> lookup k' (setField k v fields) = lookup k' fields.
Proof.
  intros Hne. induction fields as [| [k0 v0] rest IH]; cbn.
  - destruct (String.eqb_spec k' k); [contradiction | reflexivity].
  - destruct (String.eqb_spec k k0) as [-> |]; cbn.
    + destruct (String.eqb_spec k' k0); [contradiction | reflexivity].
    + rewrite IH. reflexivity.
Qed.

Lemma featuresOf_setField (kept : list value) (fields : list (string * value)) :
  featuresOf (Obj (setField "features" (Arr kept) fields)) = kept.
Proof.
  unfold featuresOf. cbn [get]. rewrite lookup_setField_same. reflexivity.
Qed.

(** ** The proximity filter on arbitrary values *)

Lemma isStr_true (v : value) (s : string) : isStr v s = true -> v = Str s.
Proof.
  destruct v; cbn; try discriminate. intros H.
  apply String.eqb_eq in H. congruence.
Qed.

Lemma get_defined_truthy (v : value) (k : string) (x : value) :
  get v k = Ok x -> x <> Undefined -> truthy v = true.
Proof.
  destruct v; cbn; intros H Hx; try discriminate H; try reflexivity;
    injection H as <-; contradiction.
Qed.

Lemma array_two (v : value) :
  isArray v = true -> (length (elements v) <? 2) = false ->
  exists a b rest, v = Arr (a :: b :: rest).
Proof.
  destruct v as [| | | | | l |]; cbn; try discriminate. intros _ H.
  destruct l as [| a [| b rest]]; try discriminate H. eauto.
Qed.

Lemma array_one (v : value) :
  isArray v = true -> (length (elements v) =? 0) = false ->
  exists a rest, v = Arr (a :: rest).
Proof.
  destruct v as [| | | | | l |]; cbn; try discriminate. intros _ H.
  destruct l as [| a rest]; try discriminate H. eauto.
Qed.

(** The [typeof] and [isNaN] test at the end of the [try] block. *)
Lemma validated (a b : value) (lat lon : number) :
  match a, b with
  | Number featureLat, Number featureLon =>
      if isNaN featureLat || isNaN featureLon then Ok None
      else Ok (Some (featureLat, featureLon))
  | _, _ => Ok None
  end = Ok (Some (lat, lon)) ->
  a = Number lat /\ b = Number lon /\ isNaN lat || isNaN lon = false.
Proof.
  destruct a as [| | | x | | |]; try discriminate.
  destruct b as [| | | y | | |]; try discriminate.
  destruct (isNaN x || isNaN y) eqn:E; [discriminate |].
  intros H. injection H as <- <-. auto.
Qed.

(** What the [try] block extracts is the representative point. *)
Lemma featureLatLon_sound (feature : value) (lat lon : number) :
  featureLatLon feature = Ok (Some (lat, lon)) ->
  representativePoint feature lat lon.
Proof.
  unfold featureLatLon.
  destruct (get feature "geometry") as [geometry |] eqn:Eg; cbn [bind]; [| discriminate].
  destruct (get geometry "type") as [type |] eqn:Et; cbn [bind]; [| discriminate].
  destruct (get geometry "coordinates") as [coordinates |] eqn:Ec; cbn [bind];
    [| discriminate].
  destruct (isStr type "Point") eqn:EP.
  { apply isStr_true in EP. subst type.
    destruct (isArray coordinates) eqn:Ea; cbn [negb orb]; [| discriminate].
    destruct (length (elements coordinates) <? 2) eqn:El; [discriminate |].
    destruct (array_two coordinates Ea El) as [a [b [rest ->]]].
    cbn [item elements nth]. intros H.
    apply validated in H. destruct H as [-> [-> _]].
    eapply representative_Point; eassumption. }
  destruct (isStr type "LineString") eqn:EL.
  { apply isStr_true in EL. subst type.
    destruct (isArray coordinates) eqn:Ea; cbn [negb orb]; [| discriminate].
    destruct (length (elements coordinates) =? 0) eqn:El; [discriminate |].
    destruct (array_one coordinates Ea El) as [first [others ->]].
    cbn [item elements nth].
    destruct (isArray first) eqn:Ea1; cbn [negb orb]; [| discriminate].
    destruct (length (elements first) <? 2) eqn:El1; [discriminate |].
    destruct (array_two first Ea1 El1) as [a [b [rest ->]]].
    cbn [item elements nth]. intros H.
    apply validated in H. destruct H as [-> [-> _]].
    eapply representative_LineString; eassumption. }
  destruct (isStr type "MultiLineString") eqn:EM; [| discriminate].
  apply isStr_true in EM. subst type.
  destruct (isArray coordinates) eqn:Ea; cbn [negb orb]; [| discriminate].
  destruct (length (elements coordinates) =? 0) eqn:El; [discriminate |].
  destruct (array_one coordinates Ea El) as [firstLine [lines ->]].
  cbn [item elements nth].
  destruct (isArray firstLine) eqn:Ea1; cbn [negb orb]; [| discriminate].
  destruct (length (elements firstLine) =? 0) eqn:El1; [discriminate |].
  destruct (array_one firstLine Ea1 El1) as [first [others ->]].
  cbn [item elements nth].
  destruct (isArray first) eqn:Ea2; cbn [negb orb]; [| discriminate].
  destruct (length (elements first) <? 2) eqn:El2; [discriminate |].
  destruct (array_two first Ea2 El2) as [a [b [rest ->]]].
  cbn [item elements nth]. intros H.
  apply validated in H. destruct H as [-> [-> _]].
  eapply representative_MultiLineString; eassumption.
Qed.

Lemma featureLatLon_complete (feature : value) (lat lon : number) :
  representativePoint feature lat lon ->
  isNaN lat || isNaN lon = false ->
  featureLatLon feature = Ok (Some (lat, lon)).
Proof.
  intros Hrep Hnan. unfold featureLatLon.
  destruct Hrep as [geometry lon lat rest Hg Ht Hc
                   | geometry lon lat rest others Hg Ht Hc
                   | geometry lon lat rest others lines Hg Ht Hc];
    rewrite Hg; cbn [bind]; rewrite Ht; cbn [bind]; rewrite Hc; cbn [bind];
    cbn; rewrite Hnan; reflexivity.
Qed.

(** The callback answers [true] exactly on the features that are near. *)
Lemma isNearbyFeature_spec (userLat userLon radiusKm : number) (feature : value) :
  isNearbyFeature userLat userLon radiusKm feature = Ok true <->
  Near userLat userLon radiusKm feature.
Proof.
  unfold Near. split.
  - unfold isNearbyFeature.
    destruct (truthy feature); cbn [negb]; [| discriminate].
    destruct (get feature "geometry") as [geometry |]; cbn [bind]; [| discriminate].
    destruct (truthy geometry); cbn [negb]; [| discriminate].
    destruct (get geometry "coordinates") as [coordinates |]; cbn [bind];
      [| discriminate].
    destruct (truthy coordinates); cbn [negb]; [| discriminate].
    destruct (featureLatLon feature) as [[[lat lon] |] |] eqn:E; cbn [catchWith];
      try discriminate.
    intros H. injection H as H. exists lat, lon. split; [| exact H].
    apply featureLatLon_sound. exact E.
  - intros [lat [lon [Hrep Hle]]].
    assert (Hnan : isNaN lat || isNaN lon = false).
    { destruct (isNaN lat || isNaN lon) eqn:E; [| reflexivity].
      rewrite (calculateDistance_NaN userLat userLon lat lon E) in Hle.
      discriminate Hle. }
    pose proof (featureLatLon_complete Hrep Hnan) as Hrun.
    unfold isNearbyFeature.
    assert (exists geometry coordinates,
               get feature "geometry" = Ok geometry /\
               get geometry "coordinates" = Ok coordinates /\
               geometry <> Undefined /\ isArray coordinates = true /\
               truthy geometry = true)
      as [geometry [coordinates [Hg [Hc [Hdef [Harr Htg]]]]]].
    { destruct Hrep as [geometry ? ? ? Hg Ht Hc
                       | geometry ? ? ? ? Hg Ht Hc
                       | geometry ? ? ? ? ? Hg Ht Hc];
        exists geometry; eexists; (split; [exact Hg |]); (split; [exact Hc |]);
        (split; [intros ->; discriminate Ht |]); (split; [reflexivity |]);
        (eapply get_defined_truthy; [exact Ht | discriminate]). }
    rewrite (get_defined_truthy _ _ Hg Hdef). cbn [negb].
    rewrite Hg. cbn [bind]. rewrite Htg. cbn [negb].
    rewrite Hc. cbn [bind].
    destruct coordinates; try discriminate Harr. cbn [truthy negb].
    rewrite Hrun. cbn [catchWith]. rewrite Hle. reflexivity.
Qed.

Lemma isNearbyFeature_total (userLat userLon radiusKm : number) (feature : value) :
  exists b, isNearbyFeature userLat userLon radiusKm feature = Ok b.
Proof.
  unfold isNearbyFeature.
  destruct (truthy feature) eqn:Hf; cbn [negb]; [| eauto].
  destruct (get_truthy feature "geometry" Hf) as [geometry ->]. cbn [bind].
  destruct (truthy geometry) eqn:Hg; cbn [negb]; [| eauto].
  destruct (get_truthy geometry "coordinates" Hg) as [coordinates ->]. cbn [bind].
  destruct (truthy coordinates); cbn [negb]; [| eauto].
  destruct (catchWith (featureLatLon feature) None) as [[featureLat featureLon] |];
    eauto.
Qed.

(** [filterDataset] never throws, and what it returns depends only on
    whether the dataset has a [features] array. *)
Lemma filterDataset_cases (userLat userLon radiusKm : number) (dataset : value) :
  filterDataset userLat userLon radiusKm dataset =
  Ok (if hasFeaturesArray dataset
      then Obj (setField "features"
                  (Arr (filter
                          (fun f =>
                             catchWith (isNearbyFeature userLat userLon radiusKm f) false)
                          (featuresOf dataset)))
                  (fieldsOf dataset))
      else emptyCollection).
Proof.
  unfold filterDataset, hasFeaturesArray, featuresOf.
  destruct dataset as [| | b | n | s | l | fields]; try reflexivity.
  - destruct b; reflexivity.
  - destruct (truthy (Number n)); reflexivity.
  - destruct (truthy (Str s)); reflexivity.
  - cbn [truthy negb get].
    destruct (lookup "features" fields) as [features |]; [| reflexivity].
    cbn [bind].
    destruct features as [| | b | n | s | l | fs]; try reflexivity.
    + destruct b; reflexivity.
    + destruct (truthy (Number n)); reflexivity.
    + destruct (truthy (Str s)); reflexivity.
    + cbn [truthy isArray negb orb elements].
      rewrite filterM_total by (intros x; apply isNearbyFeature_total).
      reflexivity.
Qed.

Lemma featuresOf_no_array (dataset : value) :
  hasFeaturesArray dataset = false -> featuresOf dataset = [].
Proof.
  unfold hasFeaturesArray, featuresOf.
  destruct dataset as [| | | | | | fields]; try reflexivity.
  cbn [get]. destruct (lookup "features" fields) as [[| | | | | l |] |];
    try reflexivity. discriminate.
Qed.

Lemma filterDataset_retains (userLat userLon radiusKm : number) (dataset : value) :
  exists nearby,
    filterDataset userLat userLon radiusKm dataset = Ok nearby /\
    Subsequence (featuresOf nearby) (featuresOf dataset) /\
    (forall feature,
        In feature (featuresOf nearby) <->
        In feature (featuresOf dataset) /\ Near userLat userLon radiusKm feature).
Proof.
  rewrite filterDataset_cases. eexists. split; [reflexivity |].
  destruct (hasFeaturesArray dataset) eqn:E.
  - rewrite featuresOf_setField. split; [apply Subsequence_filter |].
    intros feature. rewrite filter_In, <- isNearbyFeature_spec.
    destruct (isNearbyFeature_total userLat userLon radiusKm feature) as [b ->].
    cbn [catchWith]. split; intros [Hin Hb]; (split; [exact Hin | congruence]).
  - rewrite (featuresOf_no_array _ E). split; [constructor |].
    intros feature. cbn. tauto.
Qed.

(** C1.  For every list of datasets, every reference and every radius,
    [filterNearbyFeatures] returns one dataset per input dataset, and a
    feature is in the output dataset if and only if it is in the input
    dataset and has a representative point (a Point's own coordinate, a
    LineString's first coordinate, a MultiLineString's first line's first
    coordinate) whose [calculateDistance] from the reference is [<=
    radiusKm]; the kept features stay in their order; and [<=] holds at
    equality for every number but [NaN]. *)
Theorem filterNearbyFeatures_retains
        (data : list value) (userLat userLon radiusKm : number) :
  (exists nearbyData,
      filterNearbyFeatures data userLat userLon radiusKm = Ok nearbyData /\
      Forall2 (Retained userLat userLon radiusKm) nearbyData data)
  /\ (forall d : number, nle d d = negb (isNaN d)).
Proof.
  split; [| apply nle_refl].
  unfold filterNearbyFeatures.
  induction data as [| dataset rest IH]; cbn [mapM].
  - exists []. split; [reflexivity | constructor].
  - destruct (filterDataset_retains userLat userLon radiusKm dataset)
      as [nearby [-> Hkept]].
    destruct IH as [others [-> Hall]]. cbn [bind].
    exists (nearby :: others). split; [reflexivity | constructor; assumption].
Qed.

(** The rule at work around Manila with a radius of 10 km, on a collection
    of a bridge and a road. *)
Lemma filterNearbyFeatures_retains_witness :
  exists nearbyData,
    filterNearbyFeatures [GeoJSON.encodeCollection [bridge; road]]
      (Num 14.5995) (Num 120.9842) (Num 10) = Ok nearbyData
    /\ Forall2 (Retained (Num 14.5995) (Num 120.9842) (Num 10)) nearbyData
         [GeoJSON.encodeCollection [bridge; road]].
Proof.
  exact (proj1 (filterNearbyFeatures_retains
                  [GeoJSON.encodeCollection [bridge; road]]
                  (Num 14.5995) (Num 120.9842) (Num 10))).
Defined.

Lemma filterDataset_subsequence (userLat userLon radiusKm : number) (dataset : value) :
  exists nearby,
    filterDataset userLat userLon radiusKm dataset = Ok nearby /\
    Subsequence (featuresOf nearby) (featuresOf dataset).
Proof.
  rewrite filterDataset_cases. eexists. split; [reflexivity |].
  destruct (hasFeaturesArray dataset).
  - rewrite featuresOf_setField. apply Subsequence_filter.
  - apply Subsequence_nil_l.
Qed.

(** The filter always returns, one collection per input collection. *)
Lemma filterNearbyFeatures_subsequence
      (data : list value) (userLat userLon radiusKm : number) :
  exists nearbyData,
    filterNearbyFeatures data userLat userLon radiusKm = Ok nearbyData /\
    Filtered nearbyData data.
Proof.
  unfold filterNearbyFeatures, Filtered.
  induction data as [| dataset rest IH]; cbn [mapM].
  - exists []. split; [reflexivity | constructor].
  - destruct (filterDataset_subsequence userLat userLon radiusKm dataset)
      as [nearby [-> Hsub]].
    destruct IH as [others [-> Hall]]. cbn [bind].
    exists (nearby :: others). split; [reflexivity | constructor; assumption].
Qed.

Lemma Filtered_contained (nearbyData data : list value) :
  Filtered nearbyData data ->
  forall dataset feature,
    In dataset nearbyData -> In feature (featuresOf dataset) ->
    exists original, In original data /\ In feature (featuresOf original).
Proof.
  induction 1 as [| nearby original nearbyData data Hsub _ IH];
    intros dataset feature Hd Hf.
  - destruct Hd.
  - destruct Hd as [<- | Hd].
    + exists original. split; [left; reflexivity |].
      eapply Subsequence_In; eassumption.
    + destruct (IH dataset feature Hd Hf) as [o [Ho Hfo]].
      exists o. split; [right; assumption | assumption].
Qed.

(** ** The proximity filter on encoded features *)

Lemma isNearbyFeature_encoded (userLat userLon radiusKm : number) (f : GeoJSON.Feature) :
  isNearbyFeature userLat userLon radiusKm (GeoJSON.encodeFeature f) =
  Ok (GeoJSON.retained userLat userLon radiusKm f).
Proof.
  destruct f as [g props]. unfold GeoJSON.retained. cbn [GeoJSON.geometry].
  destruct g as [c | cs | lines | rings].
  - reflexivity.
  - destruct cs as [| c cs]; reflexivity.
  - destruct lines as [| [| c cs] lines]; reflexivity.
  - reflexivity.
Qed.

Lemma filterDataset_encoded (userLat userLon radiusKm : number)
      (fs : list GeoJSON.Feature) :
  filterDataset userLat userLon radiusKm (GeoJSON.encodeCollection fs) =
  Ok (GeoJSON.encodeCollection (filter (GeoJSON.retained userLat userLon radiusKm) fs)).
Proof.
  unfold filterDataset, GeoJSON.encodeCollection.
  cbn [truthy negb get lookup String.eqb Ascii.eqb Bool.eqb bind isArray orb
         elements fieldsOf].
  rewrite (filterM_map GeoJSON.encodeFeature _
             (GeoJSON.retained userLat userLon radiusKm)).
  - reflexivity.
  - intros x. apply isNearbyFeature_encoded.
Qed.

Lemma filterNearbyFeatures_encoded
      (collections : list (list GeoJSON.Feature)) (userLat userLon radiusKm : number) :
  filterNearbyFeatures (map GeoJSON.encodeCollection collections)
    userLat userLon radiusKm =
  Ok (map GeoJSON.encodeCollection
        (map (filter (GeoJSON.retained userLat userLon radiusKm)) collections)).
Proof.
  unfold filterNearbyFeatures. rewrite map_map.
  apply mapM_map. intros fs. apply filterDataset_encoded.
Qed.

(** C3, as the code has it.  The filter gives a Polygon no representative
    point: on a Polygon feature the callback answers [false] whatever the
    rings, the reference and the radius, and no collection of the nearby
    view holds a Polygon. *)
Theorem polygon_never_nearby
        (collections : list (list GeoJSON.Feature)) (userLat userLon radiusKm : number) :
  (forall (rings : list (list GeoJSON.Coordinate))
          (properties : list (string * value)),
      isNearbyFeature userLat userLon radiusKm
        (GeoJSON.encodeFeature
           {| GeoJSON.geometry := GeoJSON.Polygon rings;
              GeoJSON.properties := properties |}) = Ok false)
  /\ exists nearby : list (list GeoJSON.Feature),
      filterNearbyFeatures (map GeoJSON.encodeCollection collections)
        userLat userLon radiusKm = Ok (map GeoJSON.encodeCollection nearby)
      /\ Forall (Forall (fun f => isPolygon (GeoJSON.geometry f) = false)) nearby.
Proof.
  split; [reflexivity |].
  exists (map (filter (GeoJSON.retained userLat userLon radiusKm)) collections).
  split; [apply filterNearbyFeatures_encoded |].
  apply Forall_forall. intros fs Hfs.
  apply in_map_iff in Hfs. destruct Hfs as [original [<- _]].
  apply Forall_forall. intros f Hf.
  apply filter_In in Hf. destruct Hf as [_ Hkept].
  unfold GeoJSON.retained in Hkept.
  destruct (GeoJSON.geometry f); try reflexivity. discriminate Hkept.
Qed.

(** C3 fails as stated: the outer ring of [plaza] starts at the reference
    itself, within the 10 km radius, and the filter drops the feature. *)
Lemma polygon_within_radius_dropped :
  GeoJSON.outerRingStart plazaRings = Some manila
  /\ GeoJSON.withinRadius (Num 14.5995) (Num 120.9842) (Num 10) manila = true
  /\ filterNearbyFeatures [GeoJSON.encodeCollection [plaza]]
       (Num 14.5995) (Num 120.9842) (Num 10) =
     Ok [GeoJSON.encodeCollection []].
Proof.
  split; [reflexivity | split].
  - unfold GeoJSON.withinRadius, manila. cbn [GeoJSON.lat GeoJSON.lon].
    rewrite calculateDistance_same. apply nle_Num. lra.
  - reflexivity.
Qed.

(** C10, as the code has it.  [filterNearbyFeatures] always returns, with
    one dataset per input dataset: for an input that has a [features] array
    every field but [features] reads the same in the output; any other input
    is replaced by a fresh empty collection.  [updateNearbyFeatures] leaves
    the complete view as it was. *)
Theorem filterNearbyFeatures_frame
        (data : list value) (userLat userLon radiusKm : number) :
  (exists nearbyData,
      filterNearbyFeatures data userLat userLon radiusKm = Ok nearbyData /\
      Forall2 (fun nearby dataset =>
                 if hasFeaturesArray dataset
                 then forall k : string, k <> "features"%string ->
                                         get nearby k = get dataset k
                 else nearby = emptyCollection)
        nearbyData data)
  /\ (forall (lat lon : value) (s : MapState),
         allGeoJsonData (updateNearbyFeatures lat lon s) = allGeoJsonData s).
Proof.
  split.
  - unfold filterNearbyFeatures.
    induction data as [| dataset rest IH]; cbn [mapM].
    + exists []. split; [reflexivity | constructor].
    + rewrite filterDataset_cases. destruct IH as [others [-> Hall]]. cbn [bind].
      eexists. split; [reflexivity |]. constructor; [| exact Hall].
      destruct (hasFeaturesArray dataset) eqn:E; [| reflexivity].
      intros k Hk. destruct dataset; try discriminate E.
      cbn [get fieldsOf]. rewrite lookup_setField_other by exact Hk. reflexivity.
  - intros lat lon s. unfold updateNearbyFeatures.
    destruct (length (allGeoJsonData s) =? 0); [reflexivity |].
    destruct lat as [| | | lat | | |]; try reflexivity.
    destruct lon as [| | | lon | | |]; try reflexivity.
    destruct (isNaN lat || isNaN lon); [reflexivity |].
    destruct (filterNearbyFeatures (allGeoJsonData s) lat lon (Num 10)); reflexivity.
Qed.

(** The frame at work on [bridges]: its [name] survives the filter. *)
Lemma filterNearbyFeatures_frame_witness :
  exists nearby,
    filterNearbyFeatures [bridges] (Num 14.5995) (Num 120.9842) (Num 10)
    = Ok [nearby]
    /\ get nearby "name" = Ok (Str "bridges").
Proof.
  destruct (filterNearbyFeatures_frame [bridges]
              (Num 14.5995) (Num 120.9842) (Num 10)) as [[nearbyData [Hrun Hall]] _].
  inversion Hall as [| nearby dataset others rest Hkeep Hrest]; subst.
  inversion Hrest; subst.
  exists nearby. split; [exact Hrun |].
  cbn [hasFeaturesArray bridges lookup String.eqb Ascii.eqb Bool.eqb] in Hkeep.
  rewrite Hkeep by discriminate. reflexivity.
Defined.

(** C10 fails as stated: a dataset without a [features] array loses its
    other fields. *)
Lemma filterNearbyFeatures_drops_fields :
  filterNearbyFeatures [namedDataset] (Num 14.5995) (Num 120.9842) (Num 10) =
    Ok [emptyCollection]
  /\ get namedDataset "name" = Ok (Str "roads")
  /\ get emptyCollection "name" = Ok Undefined.
Proof. repeat split. Qed.

(** ** The component state *)

Lemma nearbyWithinComplete_empty (s : MapState) :
  geoJsonData s = [] -> nearbyWithinComplete s.
Proof. intros E dataset feature Hd. rewrite E in Hd. destruct Hd. Qed.

Lemma nearbyWithinComplete_same (s : MapState) :
  geoJsonData s = allGeoJsonData s -> nearbyWithinComplete s.
Proof. intros E dataset feature Hd Hf. rewrite E in Hd. eauto. Qed.

Lemma updateNearbyFeatures_invariant (userLat userLon : value) (s : MapState) :
  nearbyWithinComplete s -> nearbyWithinComplete (updateNearbyFeatures userLat userLon s).
Proof.
  intros Hinv. unfold updateNearbyFeatures.
  destruct (length (allGeoJsonData s) =? 0); [assumption |].
  destruct userLat as [| | | lat | | |]; try assumption.
  destruct userLon as [| | | lon | | |]; try assumption.
  destruct (isNaN lat || isNaN lon); [assumption |].
  destruct (filterNearbyFeatures_subsequence (allGeoJsonData s) lat lon (Num 10))
    as [nearbyData [-> Hall]].
  intros dataset feature. cbn. apply Filtered_contained. assumption.
Qed.

(** With a finite reference the nearby view is the filtered complete view,
    collection by collection. *)
Lemma updateNearbyFeatures_positional (lat lon : R) (s : MapState) :
  allGeoJsonData s = [] \/
  Filtered (geoJsonData (updateNearbyFeatures (Number (Num lat)) (Number (Num lon)) s))
    (allGeoJsonData s).
Proof.
  unfold updateNearbyFeatures.
  destruct (allGeoJsonData s) as [| d ds] eqn:E; [left; reflexivity | right].
  cbn [length Nat.eqb isNaN orb].
  destruct (filterNearbyFeatures_subsequence (d :: ds) (Num lat) (Num lon) (Num 10))
    as [nearbyData [-> Hall]].
  exact Hall.
Qed.

Section Reachable.

Variable JSON_parse : string -> result value.

(** The invariant of the screen. *)
Lemma reachable_invariant (s : MapState) :
  reachable JSON_parse s -> nearbyWithinComplete s.
Proof.
  induction 1 as [| e s _ IH].
  - apply nearbyWithinComplete_empty. reflexivity.
  - destruct e as [outcome | latitude longitude | | newRegion]; cbn [handle].
    + destruct outcome as [| | [[| p ps] |] |];
        first [ apply nearbyWithinComplete_empty; reflexivity
              | apply nearbyWithinComplete_same; reflexivity ].
    + unfold getCurrentLocation.
      destruct (0 <? length (allGeoJsonData s)).
      * apply updateNearbyFeatures_invariant. exact IH.
      * exact IH.
    + unfold centerOnLocation. destruct (location s) as [[latitude longitude] |].
      * apply updateNearbyFeatures_invariant. exact IH.
      * exact IH.
    + apply updateNearbyFeatures_invariant. exact IH.
Qed.

(** C2.  In every state the screen can reach, after
    [updateNearbyFeatures] every feature of the nearby view is a feature of
    the complete view; with a finite reference the nearby view is, dataset
    by dataset and in the same order, a subsequence of the complete view;
    and on any data [filterNearbyFeatures] returns one dataset per input
    dataset whose features are a subsequence of that dataset's. *)
Theorem nearby_subset_complete (s : MapState) (userLat userLon : value) :
  reachable JSON_parse s ->
  nearbyWithinComplete (updateNearbyFeatures userLat userLon s)
  /\ (forall lat lon : R,
         allGeoJsonData s = [] \/
         Filtered
           (geoJsonData (updateNearbyFeatures (Number (Num lat)) (Number (Num lon)) s))
           (allGeoJsonData s))
  /\ (forall (data : list value) (lat lon radiusKm : number),
         exists nearbyData,
           filterNearbyFeatures data lat lon radiusKm = Ok nearbyData /\
           Filtered nearbyData data).
Proof.
  intros Hreach. split; [| split].
  - apply updateNearbyFeatures_invariant.
    apply reachable_invariant. exact Hreach.
  - intros lat lon. apply updateNearbyFeatures_positional.
  - intros data lat lon radiusKm. apply filterNearbyFeatures_subsequence.
Qed.

End Reachable.

(** The invariant at work after one load, for a map centred on Manila. *)
Lemma nearby_subset_complete_witness :
  reachable rejectAll loadedState
  /\ nearbyWithinComplete
       (updateNearbyFeatures (Number (Num 14.5995)) (Number (Num 120.9842))
          loadedState).
Proof.
  assert (Hreach : reachable rejectAll loadedState)
    by (unfold loadedState; apply reachable_handle; apply reachable_initial).
  split; [exact Hreach |].
  apply (nearby_subset_complete
           (Number (Num 14.5995)) (Number (Num 120.9842)) Hreach).
Defined.



Lemma retained_Infinity (s : bool) (userLon radiusKm : number) (f : GeoJSON.Feature) :
  GeoJSON.retained (Infinity s) userLon radiusKm f = false.
Proof.
  unfold GeoJSON.retained, GeoJSON.withinRadius.
  destruct (GeoJSON.representative (GeoJSON.geometry f)); [| reflexivity].
  rewrite calculateDistance_Infinity. reflexivity.
Qed.

Lemma filter_none (A : Type) (p : A -> bool) (l : list A) :
  (forall x, p x = false) -> filter p l = [].
Proof.
  intros H. induction l as [| x l IH]; [reflexivity |].
  cbn. rewrite H. exact IH.
Qed.

(** An infinite latitude passes the guard of [updateNearbyFeatures]: the
    filter runs and empties the nearby view. *)
Lemma updateNearbyFeatures_accepts_Infinity (s : MapState) :
  allGeoJsonData s = [GeoJSON.encodeCollection [bridge; road]] ->
  geoJsonData (updateNearbyFeatures (Number (Infinity false)) (Number (Num 120.9842)) s)
  = [GeoJSON.encodeCollection []].
Proof.
  intros E. unfold updateNearbyFeatures. rewrite E.
  cbn [length Nat.eqb isNaN orb].
  change [GeoJSON.encodeCollection [bridge; road]]
    with (map GeoJSON.encodeCollection [[bridge; road]]).
  rewrite filterNearbyFeatures_encoded. cbn [map geoJsonData setGeoJsonData].
  rewrite filter_none by (intros x; apply retained_Infinity).
  reflexivity.
Qed.

(** ** Loading *)

Section Normalization.

Variable JSON_parse : string -> result value.

Lemma geoJsonFeatures_app (ps qs : list project) :
  geoJsonFeatures JSON_parse (ps ++ qs) =
  geoJsonFeatures JSON_parse ps ++ geoJsonFeatures JSON_parse qs.
Proof.
  unfold geoJsonFeatures. rewrite filter_app, map_app, filter_app. reflexivity.
Qed.

Lemma toFeature_not_text (p : project) :
  (forall text, geom p <> Str text) ->
  exists properties,
    toFeature JSON_parse p =
    Obj [("type", Str "Feature"); ("geometry", geom p);
         ("properties", properties)]%string.
Proof.
  intros Hnot. unfold toFeature.
  destruct (geom p) as [| | b | n | s | l | fields] eqn:E;
    try (eexists; reflexivity).
  exfalso. apply (Hnot s). reflexivity.
Qed.

Lemma geoJsonFeatures_dropped (p : project) :
  geoJsonFeatures JSON_parse [p] = [] <-> dropped JSON_parse p.
Proof.
  unfold geoJsonFeatures, dropped. cbn [filter map].
  destruct (truthy (geom p)) eqn:Ht; cbn [filter map].
  - unfold toFeature.
    destruct (geom p) as [| | b | n | s | l | fields] eqn:E;
      cbn [isNull negb filter];
      try (split; [discriminate | intros [H | [text [e [H _]]]]; discriminate]).
    destruct (JSON_parse s) as [g | e] eqn:Ep; cbn [bind catchWith isNull negb].
    + split; [discriminate |].
      intros [H | [text [e [H Hp]]]]; [discriminate |].
      injection H as <-. rewrite Ep in Hp. discriminate.
    + split; [intros _; right; eauto | reflexivity].
  - split; [intros _; left; reflexivity | reflexivity].
Qed.

Lemma geoJsonFeatures_kept (p : project) :
  (forall text, geom p <> Str text) -> truthy (geom p) = true ->
  exists properties,
    geoJsonFeatures JSON_parse [p] =
    [Obj [("type", Str "Feature"); ("geometry", geom p);
          ("properties", properties)]%string].
Proof.
  intros Hnot Ht. unfold geoJsonFeatures. cbn [filter map].
  rewrite Ht. cbn [filter map].
  destruct (toFeature_not_text p Hnot) as [properties ->].
  exists properties. reflexivity.
Qed.

Lemma geoJsonFeatures_decoded (p : project) (text : string) (geometry : value) :
  geom p = Str text -> truthy (Str text) = true -> JSON_parse text = Ok geometry ->
  exists properties,
    geoJsonFeatures JSON_parse [p] =
    [Obj [("type", Str "Feature"); ("geometry", geometry);
          ("properties", properties)]%string].
Proof.
  intros Hgeom Ht Hparse. unfold geoJsonFeatures. cbn [filter map].
  rewrite Hgeom, Ht. cbn [filter map]. unfold toFeature.
  rewrite Hgeom, Hparse. cbn [bind catchWith isNull negb filter].
  eexists. reflexivity.
Qed.

(** C6, as the code has it.  Ingestion goes row by row and a row never
    stops the others; a row leaves no feature exactly when its [geom] is
    absent or is a text that does not parse; a [geom] that is present and
    is not a text becomes the geometry of the feature as it is, and a text
    that parses becomes the parsed value, whatever the coordinates. *)
Theorem normalization_by_geometry_presence
        (before after : list project) (p : project) :
  geoJsonFeatures JSON_parse (before ++ p :: after) =
    geoJsonFeatures JSON_parse before ++ geoJsonFeatures JSON_parse [p]
      ++ geoJsonFeatures JSON_parse after
  /\ (geoJsonFeatures JSON_parse [p] = [] <-> dropped JSON_parse p)
  /\ ((forall text, geom p <> Str text) -> truthy (geom p) = true ->
      exists properties,
        geoJsonFeatures JSON_parse [p] =
        [Obj [("type", Str "Feature"); ("geometry", geom p);
              ("properties", properties)]%string])
  /\ (forall (text : string) (geometry : value),
         geom p = Str text -> truthy (Str text) = true ->
         JSON_parse text = Ok geometry ->
         exists properties,
           geoJsonFeatures JSON_parse [p] =
           [Obj [("type", Str "Feature"); ("geometry", geometry);
                 ("properties", properties)]%string]).
Proof.
  split; [| split; [| split]].
  - rewrite geoJsonFeatures_app.
    change (p :: after) with ([p] ++ after).
    rewrite geoJsonFeatures_app. reflexivity.
  - apply geoJsonFeatures_dropped.
  - apply geoJsonFeatures_kept.
  - apply geoJsonFeatures_decoded.
Qed.

End Normalization.

(** The rule at work on a row whose Point lies at latitude 95. *)
Lemma normalization_by_geometry_presence_witness :
  exists properties,
    geoJsonFeatures rejectAll [strayProject] =
    [Obj [("type", Str "Feature"); ("geometry", geom strayProject);
          ("properties", properties)]%string].
Proof.
  destruct (normalization_by_geometry_presence rejectAll [] [] strayProject)
    as [_ [_ [Hkept _]]].
  apply Hkept; [discriminate | reflexivity].
Defined.

(** C6 fails as stated: the Point of [strayProject] has latitude 95, outside
    the range, and its feature is in the normalized output, as is the
    feature of the row that follows it. *)
Lemma out_of_range_geometry_kept :
  ~ inRange offTheMap
  /\ map (fun feature => get feature "geometry")
       (geoJsonFeatures rejectAll [strayProject; bridgeProject]) =
     [Ok (GeoJSON.encodeGeometry (GeoJSON.Point offTheMap));
      Ok (GeoJSON.encodeGeometry (GeoJSON.Point manila))].
Proof.
  split.
  - unfold inRange, offTheMap. cbn [GeoJSON.lat GeoJSON.lon]. lra.
  - reflexivity.
Qed.

(** ** The layer component *)

Import Layer.

Lemma toCoordinates_positions (cs : list GeoJSON.Coordinate) :
  toCoordinates (map GeoJSON.position cs) = map latLngOf cs.
Proof.
  unfold toCoordinates. induction cs as [| c cs IH]; [reflexivity |].
  cbn [map filter]. cbn [GeoJSON.position isValidCoord truthy isArray elements length
                         Nat.leb andb map].
  rewrite IH. reflexivity.
Qed.

Lemma toCoordinates_empty (line : list value) :
  (length (toCoordinates line) =? 0) = negb (hasValidVertex line).
Proof.
  unfold toCoordinates, hasValidVertex.
  induction line as [| coord line IH]; [reflexivity |].
  cbn [filter existsb]. destruct (isValidCoord coord); [reflexivity | exact IH].
Qed.

Section Rendered.

Variable strokeColor : string.
Variable strokeWidth : Z.

Lemma renderLine_array (feature : value) (index : nat) (line : list value)
      (lineIndex : nat) :
  renderLine strokeColor strokeWidth feature index (Arr line) lineIndex =
  Ok (if hasValidVertex line
      then Polyline (multiline index lineIndex) (toCoordinates line)
             strokeColor strokeWidth None feature
      else Nothing).
Proof.
  unfold renderLine. cbn [asArray bind].
  rewrite toCoordinates_empty. destruct (hasValidVertex line); reflexivity.
Qed.

(** A constituent that is not an array has no [filter] method: the call
    throws instead of skipping it. *)
Lemma renderLine_not_array (feature : value) (index : nat) (lineCoords : value)
      (lineIndex : nat) :
  isArray lineCoords = false ->
  renderLine strokeColor strokeWidth feature index lineCoords lineIndex
  = Throw TypeError.
Proof. destruct lineCoords; cbn; intros H; (reflexivity || discriminate H). Qed.

Lemma renderLines (feature : value) (index : nat) (lines : list (list value))
      (start : nat) :
  exists children,
    mapiM (renderLine strokeColor strokeWidth feature index) start (map Arr lines)
    = Ok children
    /\ map coordinatesOf (flat_map primitives children)
       = map toCoordinates (filter hasValidVertex lines)
    /\ Forall (isPolylineOf feature) (flat_map primitives children)
    /\ Forall (strokedWith strokeColor strokeWidth) (flat_map primitives children).
Proof.
  revert start. induction lines as [| line lines IH]; intros start.
  - exists []. cbn. repeat split; constructor.
  - destruct (IH (S start)) as [children [Hrun [Hcoords [Hpoly Hstroke]]]].
    cbn [map mapiM]. rewrite renderLine_array, Hrun. cbn [bind].
    eexists. split; [reflexivity |].
    cbn [flat_map filter].
    destruct (hasValidVertex line); cbn [primitives app map coordinatesOf].
    + repeat split.
      * f_equal. exact Hcoords.
      * constructor; [cbn; auto | exact Hpoly].
      * constructor; [cbn; auto | exact Hstroke].
    + repeat split; assumption.
Qed.


(** A Polygon whose rings are arrays of arbitrary values: only the first
    ring is read, and it gives one outline when it has a valid vertex and
    nothing otherwise. *)
Lemma polygonOf_rendering (outer : list value) (holes : list (list value))
      (properties : list (string * value)) (index : nat) :
  renderFeature strokeColor strokeWidth (polygonOf (outer :: holes) properties) index
  = Ok (if hasValidVertex outer
        then Polyline (polygon index) (toCoordinates outer) strokeColor strokeWidth
               (Some (strokeColor ++ "20")%string)
               (polygonOf (outer :: holes) properties)
        else Nothing).
Proof.
  unfold renderFeature, polygonOf.
  cbn [truthy negb get lookup String.eqb Ascii.eqb Bool.eqb bind isStr isArray orb
         elements map item nth].
  rewrite toCoordinates_empty. destruct (hasValidVertex outer); reflexivity.
Qed.

Lemma encodeFeature_Polygon (rings : list (list GeoJSON.Coordinate))
      (properties : list (string * value)) :
  GeoJSON.encodeFeature
    {| GeoJSON.geometry := GeoJSON.Polygon rings;
       GeoJSON.properties := properties |}
  = polygonOf (map (map GeoJSON.position) rings) properties.
Proof.
  unfold GeoJSON.encodeFeature, polygonOf, GeoJSON.encodeGeometry, GeoJSON.positions.
  cbn [GeoJSON.geometry GeoJSON.properties]. rewrite map_map. reflexivity.
Qed.

Lemma hasValidVertex_positions (c : GeoJSON.Coordinate) (cs : list GeoJSON.Coordinate) :
  hasValidVertex (map GeoJSON.position (c :: cs)) = true.
Proof. reflexivity. Qed.

(** C8.  A Polygon feature with a non-empty outer ring, whatever its other
    rings, renders to exactly one primitive: a polyline over the vertices
    of the outer ring, in the stroke colour and width of the layer, filled
    with the stroke colour followed by the alpha digits [20]. *)
Theorem polygon_outline
        (c : GeoJSON.Coordinate) (cs : list GeoJSON.Coordinate)
        (holes : list (list GeoJSON.Coordinate))
        (properties : list (string * value)) (index : nat) :
  let feature :=
    GeoJSON.encodeFeature
      {| GeoJSON.geometry := GeoJSON.Polygon ((c :: cs) :: holes);
         GeoJSON.properties := properties |} in
  let outline :=
    Polyline (polygon index) (map latLngOf (c :: cs)) strokeColor strokeWidth
      (Some (strokeColor ++ "20")%string) feature in
  renderFeature strokeColor strokeWidth feature index = Ok outline
  /\ primitives outline = [outline].
Proof.
  intros feature outline. split; [| reflexivity].
  unfold outline, feature. rewrite encodeFeature_Polygon.
  change (map (map GeoJSON.position) ((c :: cs) :: holes))
    with (map GeoJSON.position (c :: cs) :: map (map GeoJSON.position) holes).
  rewrite polygonOf_rendering, hasValidVertex_positions, toCoordinates_positions.
  reflexivity.
Qed.

End Rendered.





Section Stroke.

Variable strokeColor : string.
Variable strokeWidth : Z.

Lemma renderLine_stroke (feature : value) (index : nat) (lineCoords : value)
      (lineIndex : nat) (e : element) :
  renderLine strokeColor strokeWidth feature index lineCoords lineIndex = Ok e ->
  Forall (strokedWith strokeColor strokeWidth) (primitives e).
Proof.
  unfold renderLine. destruct (asArray lineCoords) as [points |]; cbn [bind];
    [| discriminate].
  destruct (length (toCoordinates points) =? 0); intros H; injection H as <-;
    cbn; repeat constructor.
Qed.

Lemma renderFeature_stroke (feature : value) (index : nat) (e : element) :
  renderFeature strokeColor strokeWidth feature index = Ok e ->
  Forall (strokedWith strokeColor strokeWidth) (primitives e).
Proof.
  unfold renderFeature.
  repeat
    match goal with
    | |- Ok _ = Ok _ -> _ => intros H; injection H as <-; cbn; repeat constructor
    | |- Throw _ = Ok _ -> _ => discriminate
    | |- context [mapiM ?f ?s ?l] =>
        let E := fresh "E" in
        destruct (mapiM f s l) eqn:E; cbn [bind]
    | |- context [bind ?m _] => destruct m; cbn [bind]
    | |- context [if ?b then _ else _] => destruct b
    end.
  all: apply Forall_flat_map.
  all: eapply mapiM_Forall; [| eassumption].
  all: intros x i y; apply renderLine_stroke.
Qed.

Lemma GeoJSONLayer_stroke (data : value) (e : element) :
  GeoJSONLayer strokeColor strokeWidth data = Ok e ->
  Forall (strokedWith strokeColor strokeWidth) (primitives e).
Proof.
  unfold GeoJSONLayer.
  destruct (negb (truthy data)); [intros H; injection H as <-; constructor |].
  destruct (get data "features") as [features |]; cbn [bind]; [| discriminate].
  destruct (negb (truthy features)); [intros H; injection H as <-; constructor |].
  destruct (asArray features) as [items |]; cbn [bind]; [| discriminate].
  destruct (mapiM (renderFeature strokeColor strokeWidth) 0 items) as [children |] eqn:E;
    cbn [bind]; [| discriminate].
  intros H. injection H as <-. cbn [primitives].
  apply Forall_flat_map.
  eapply mapiM_Forall; [| eassumption].
  intros x i y. apply renderFeature_stroke.
Qed.

End Stroke.

Lemma strokeColorOf_palette (index : nat) :
  strokeColorOf index = nth (Nat.min index 5) palette ""%string.
Proof. do 6 (destruct index as [| index]; [reflexivity |]). reflexivity. Qed.

(** C9, as the code has it.  Every primitive with a stroke that the layer of
    collection [index] emits carries the colour of [palette] at [index] for
    the indices 0 to 4 and the last colour of [palette] for every index from
    5 on, and the width 3 for index 5 and 2 for every other index. *)
Theorem layer_stroke_style
        (geoJsonData : list value) (layers : list element) (index : nat) (e : element) :
  renderLayers geoJsonData = Ok layers ->
  nth_error layers index = Some e ->
  Forall (strokedWith (nth (Nat.min index 5) palette ""%string)
            (if index =? 5 then 3%Z else 2%Z))
    (primitives e).
Proof.
  unfold renderLayers. intros Hrun Hnth.
  destruct (mapiM_nth_error _ _ _ _ Hrun Hnth) as [data [_ Hlayer]].
  cbn [Nat.add] in Hlayer. rewrite <- strokeColorOf_palette.
  fold (strokeWidthOf index).
  apply GeoJSONLayer_stroke with (data := data). exact Hlayer.
Qed.

(** The style at work on a layer that holds one road. *)
Lemma layer_stroke_style_witness :
  Forall (strokedWith "#FF6B6B" 2)
    (primitives
       (Fragment None
          [Polyline (line 0) [latLngOf manila; latLngOf quiapo] "#FF6B6B" 2 None
             (GeoJSON.encodeFeature road)])).
Proof.
  apply (@layer_stroke_style
           [GeoJSON.encodeCollection [road]]
           [Fragment None
              [Polyline (line 0) [latLngOf manila; latLngOf quiapo] "#FF6B6B" 2 None
                 (GeoJSON.encodeFeature road)]]
           0); reflexivity.
Defined.

(** C9 fails as stated: the seventh collection takes the sixth colour, not
    the first one again, and when it is the last collection its stroke is
    not wider than that of the sixth. *)
Lemma palette_does_not_cycle :
  strokeColorOf 6 <> nth (6 mod length palette) palette ""%string
  /\ ~ (strokeWidthOf 5 < strokeWidthOf 6)%Z.
Proof. split; [discriminate | cbn; lia]. Qed.

(** * Further properties of the code *)

(** ** The distance *)

Lemma atan2R_quadrant (y x : R) :
  (0 <= y)%R -> (0 <= x)%R -> (0 <= Math.atan2R y x <= PI / 2)%R.
Proof.
  intros Hy Hx. unfold Math.atan2R.
  pose proof PI_RGT_0 as Hpi.
  unfold Rzero, Rneg.
  destruct (Req_dec_T x 0) as [Ex | Ex].
  - destruct (Req_dec_T y 0); [lra |].
    destruct (Rlt_dec y 0); lra.
  - destruct (Rlt_dec x 0); [lra |].
    assert (Hq : (0 <= y / x)%R).
    { apply Rmult_le_pos; [exact Hy |]. left. apply Rinv_0_lt_compat. lra. }
    pose proof (atan_bound (y / x)) as [_ Hub].
    split; [| lra].
    destruct Hq as [Hq | <-]; [| rewrite atan_0; lra].
    rewrite <- atan_0. left. apply atan_increasing. exact Hq.
Qed.

(** The great-circle angle of a haversine term lies in [[0, PI]]. *)
Lemma greatCircle_bounds (h : R) :
  (0 <= h <= 1)%R ->
  (0 <= 6371 * (2 * Math.atan2R (sqrt h) (sqrt (1 - h))) <= 6371 * PI)%R.
Proof.
  intros [Hlo Hhi].
  pose proof (atan2R_quadrant (sqrt_pos h) (sqrt_pos (1 - h))) as [Ha Hb].
  split; nra.
Qed.


Lemma nsub_not_finite_l (a b : number) : isFinite a = false -> isFinite (a - b) = false.
Proof.
  destruct a as [| s | x]; [reflexivity | | discriminate].
  intros _. destruct b as [| t | y]; cbn; try reflexivity.
  destruct (Bool.eqb s t); reflexivity.
Qed.

Lemma nsub_not_finite_r (a b : number) : isFinite b = false -> isFinite (a - b) = false.
Proof.
  destruct b as [| t | y]; [intros _; destruct a; reflexivity | | discriminate].
  intros _. destruct a as [| s | x]; cbn; try reflexivity.
  destruct (Bool.eqb s t); reflexivity.
Qed.

Lemma scaled_not_finite (a : number) (p d : R) :
  isFinite a = false -> isFinite (a * Num p / Num d) = false.
Proof.
  destruct a as [| s | x]; [reflexivity | | discriminate].
  intros _. cbn. destruct (Rzero p); reflexivity.
Qed.

Lemma sin_half_not_finite (a : number) :
  isFinite a = false -> Math.sin (a / Num 2) = NaN.
Proof. destruct a as [| s | x]; [reflexivity | reflexivity | discriminate]. Qed.

(** A coordinate that is [NaN] or infinite makes the distance [NaN]. *)
Lemma calculateDistance_not_finite (lat1 lon1 lat2 lon2 : number) :
  isFinite lat1 && isFinite lon1 && isFinite lat2 && isFinite lon2 = false ->
  calculateDistance lat1 lon1 lat2 lon2 = NaN.
Proof.
  destruct (isFinite lat1) eqn:E1; cbn [andb].
  - destruct (isFinite lon1) eqn:E2; cbn [andb].
    + destruct (isFinite lat2) eqn:E3; cbn [andb].
      * intros E4. unfold calculateDistance, Math.PI.
        rewrite (@sin_half_not_finite _
                   (@scaled_not_finite _ PI 180 (@nsub_not_finite_l _ _ E4))).
        rewrite !nmul_NaN_r, nadd_NaN_r. cbn [Math.sqrt Math.atan2].
        rewrite !nmul_NaN_r. reflexivity.
      * intros _. unfold calculateDistance, Math.PI.
        rewrite (@sin_half_not_finite _
                   (@scaled_not_finite _ PI 180 (@nsub_not_finite_l _ _ E3))).
        reflexivity.
    + intros _. unfold calculateDistance, Math.PI.
      rewrite (@sin_half_not_finite _
                 (@scaled_not_finite _ PI 180 (@nsub_not_finite_r _ _ E2))).
      rewrite !nmul_NaN_r, nadd_NaN_r. cbn [Math.sqrt Math.atan2].
      rewrite !nmul_NaN_r. reflexivity.
  - intros _. unfold calculateDistance, Math.PI.
    rewrite (@sin_half_not_finite _
               (@scaled_not_finite _ PI 180 (@nsub_not_finite_r _ _ E1))).
    reflexivity.
Qed.


(** ** The filter as a whole *)

Lemma nle_trans (a b c : number) :
  nle a b = true -> nle b c = true -> nle a c = true.
Proof.
  destruct a as [| [|] | x], b as [| [|] | y], c as [| [|] | z];
    cbn; try discriminate; try reflexivity.
  destruct (Rle_dec x y), (Rle_dec y z), (Rle_dec x z);
    try discriminate; try reflexivity. lra.
Qed.

Lemma keeps_Near (userLat userLon radiusKm : number) (feature : value) :
  keeps userLat userLon radiusKm feature = true <->
  Near userLat userLon radiusKm feature.
Proof.
  unfold keeps. rewrite <- isNearbyFeature_spec.
  destruct (isNearbyFeature_total userLat userLon radiusKm feature) as [b ->].
  cbn [catchWith]. split; congruence.
Qed.

Lemma hasFeaturesArray_setField (kept : list value) (fields : list (string * value)) :
  hasFeaturesArray (Obj (setField "features" (Arr kept) fields)) = true.
Proof. cbn [hasFeaturesArray]. rewrite lookup_setField_same. reflexivity. Qed.

Lemma setField_twice (k : string) (v w : value) (fields : list (string * value)) :
  setField k w (setField k v fields) = setField k w fields.
Proof.
  induction fields as [| [k' v'] rest IH]; cbn.
  - rewrite String.eqb_refl. reflexivity.
  - destruct (String.eqb k k') eqn:E; cbn; rewrite E; [reflexivity |].
    rewrite IH. reflexivity.
Qed.

(** What the filter returns for one dataset, in terms of [keeps]. *)
Lemma filterDataset_keeps (userLat userLon radiusKm : number) (dataset : value) :
  exists nearby,
    filterDataset userLat userLon radiusKm dataset = Ok nearby
    /\ featuresOf nearby = filter (keeps userLat userLon radiusKm) (featuresOf dataset)
    /\ hasFeaturesArray nearby = true.
Proof.
  rewrite filterDataset_cases. eexists. split; [reflexivity |].
  destruct (hasFeaturesArray dataset) eqn:E.
  - rewrite featuresOf_setField, hasFeaturesArray_setField. split; reflexivity.
  - rewrite (featuresOf_no_array _ E). split; reflexivity.
Qed.

Lemma filterNearbyFeatures_keeps
      (data : list value) (userLat userLon radiusKm : number) :
  exists nearbyData,
    filterNearbyFeatures data userLat userLon radiusKm = Ok nearbyData
    /\ Forall2 (fun nearby dataset =>
                 featuresOf nearby
                 = filter (keeps userLat userLon radiusKm) (featuresOf dataset)
                 /\ hasFeaturesArray nearby = true)
         nearbyData data.
Proof.
  unfold filterNearbyFeatures.
  induction data as [| dataset rest IH]; cbn [mapM].
  - exists []. split; [reflexivity | constructor].
  - destruct (filterDataset_keeps userLat userLon radiusKm dataset)
      as [nearby [-> Hkept]].
    destruct IH as [others [-> Hall]]. cbn [bind].
    exists (nearby :: others). split; [reflexivity | constructor; assumption].
Qed.

Lemma Subsequence_filter_weaker (A : Type) (p q : A -> bool) (l : list A) :
  (forall x, p x = true -> q x = true) ->
  Subsequence (filter p l) (filter q l).
Proof.
  intros Hpq. induction l as [| x l IH]; cbn; [constructor |].
  destruct (p x) eqn:Ep.
  - rewrite (Hpq x Ep). apply Subsequence_keep. exact IH.
  - destruct (q x); [apply Subsequence_skip |]; exact IH.
Qed.

Lemma keeps_radius_monotone (userLat userLon r1 r2 : number) (feature : value) :
  nle r1 r2 = true ->
  keeps userLat userLon r1 feature = true -> keeps userLat userLon r2 feature = true.
Proof.
  intros Hr. rewrite !keeps_Near. intros [lat [lon [Hrep Hle]]].
  exists lat, lon. split; [exact Hrep |]. eapply nle_trans; eassumption.
Qed.

(** X3.  A larger radius never loses a feature: with the same reference, the
    features kept for [r1] are, dataset by dataset and in order, among those
    kept for any [r2] with [r1 <= r2]. *)
Theorem filterNearbyFeatures_radius_monotone
        (data : list value) (userLat userLon r1 r2 : number) :
  nle r1 r2 = true ->
  exists small large,
    filterNearbyFeatures data userLat userLon r1 = Ok small
    /\ filterNearbyFeatures data userLat userLon r2 = Ok large
    /\ Filtered small large.
Proof.
  intros Hr.
  destruct (filterNearbyFeatures_keeps data userLat userLon r1) as [small [H1 F1]].
  destruct (filterNearbyFeatures_keeps data userLat userLon r2) as [large [H2 F2]].
  exists small, large. split; [exact H1 | split; [exact H2 |]].
  clear H1 H2. unfold Filtered. revert large F2.
  induction F1 as [| a d small data [Ha _] _ IH]; intros large F2;
    inversion F2 as [| b d' large' data' [Hb _] F2']; subst; constructor.
  - rewrite Ha, Hb. apply Subsequence_filter_weaker.
    intros x. apply keeps_radius_monotone. exact Hr.
  - apply IH. exact F2'.
Qed.

Lemma filter_filter_same (A : Type) (p : A -> bool) (l : list A) :
  filter p (filter p l) = filter p l.
Proof.
  induction l as [| x l IH]; [reflexivity |].
  cbn. destruct (p x) eqn:E; cbn; [rewrite E, IH; reflexivity | exact IH].
Qed.

Lemma filterDataset_again (userLat userLon radiusKm : number) (dataset nearby : value) :
  filterDataset userLat userLon radiusKm dataset = Ok nearby ->
  filterDataset userLat userLon radiusKm nearby = Ok nearby.
Proof.
  rewrite (filterDataset_cases userLat userLon radiusKm dataset).
  intros H. injection H as <-.
  rewrite filterDataset_cases.
  destruct (hasFeaturesArray dataset).
  - rewrite hasFeaturesArray_setField, featuresOf_setField.
    cbn [fieldsOf]. rewrite setField_twice.
    change (fun f => catchWith (isNearbyFeature userLat userLon radiusKm f) false)
      with (keeps userLat userLon radiusKm).
    rewrite filter_filter_same. reflexivity.
  - reflexivity.
Qed.

(** X4.  Filtering is idempotent: filtering the nearby view again with the
    same reference and radius returns it unchanged. *)
Theorem filterNearbyFeatures_idempotent
        (data : list value) (userLat userLon radiusKm : number) :
  exists nearbyData,
    filterNearbyFeatures data userLat userLon radiusKm = Ok nearbyData
    /\ filterNearbyFeatures nearbyData userLat userLon radiusKm = Ok nearbyData.
Proof.
  unfold filterNearbyFeatures.
  induction data as [| dataset rest IH]; cbn [mapM].
  - exists []. split; reflexivity.
  - destruct (filterDataset_keeps userLat userLon radiusKm dataset)
      as [nearby [Hrun _]].
    destruct IH as [others [Hrest Hagain]].
    rewrite Hrun, Hrest. cbn [bind].
    exists (nearby :: others). split; [reflexivity |].
    cbn [mapM]. rewrite (filterDataset_again _ _ _ _ Hrun), Hagain. reflexivity.
Qed.

Lemma keeps_hopeless (userLat userLon radiusKm : number) (feature : value) :
  nle (Num 0) radiusKm = false \/ isFinite userLat && isFinite userLon = false ->
  keeps userLat userLon radiusKm feature = false.
Proof.
  intros H. destruct (keeps userLat userLon radiusKm feature) eqn:E; [| reflexivity].
  exfalso. apply keeps_Near in E. destruct E as [lat [lon [_ Hle]]].
  destruct (isFinite userLat && isFinite userLon && isFinite lat && isFinite lon) eqn:F.
  - destruct userLat as [| | a], userLon as [| | b], lat as [| | c], lon as [| | d];
      try discriminate F.
    destruct H as [H | H]; [| discriminate H].
    rewrite calculateDistance_Num in Hle.
    pose proof (greatCircle_bounds (haversine_range a b c d)) as [Hpos _].
    rewrite (nle_trans _ _ _ (nle_Num Hpos) Hle) in H. discriminate H.
  - rewrite (calculateDistance_not_finite _ _ _ _ F) in Hle. discriminate Hle.
Qed.

(** X5.  With a radius that is not [>= 0] (negative, [NaN]) or a reference
    that is [NaN] or infinite, the filter empties every dataset. *)
Theorem filterNearbyFeatures_empties
        (data : list value) (userLat userLon radiusKm : number) :
  nle (Num 0) radiusKm = false \/ isFinite userLat && isFinite userLon = false ->
  exists nearbyData,
    filterNearbyFeatures data userLat userLon radiusKm = Ok nearbyData
    /\ length nearbyData = length data
    /\ allEmpty nearbyData.
Proof.
  intros H.
  destruct (filterNearbyFeatures_keeps data userLat userLon radiusKm)
    as [nearbyData [Hrun Hall]].
  exists nearbyData. split; [exact Hrun |]. clear Hrun. unfold allEmpty.
  induction Hall as [| nearby dataset nearbyData data [Hf _] _ [IHl IHe]];
    [split; [reflexivity | constructor] |].
  split; [cbn; rewrite IHl; reflexivity |].
  constructor; [| exact IHe].
  rewrite Hf. apply filter_none. intros x. apply keeps_hopeless. exact H.
Qed.

(** A negative radius around Manila. *)
Lemma filterNearbyFeatures_empties_witness :
  exists nearbyData,
    filterNearbyFeatures [bridges] (Num 14.5995) (Num 120.9842) (Num (-1))
    = Ok nearbyData
    /\ length nearbyData = 1
    /\ allEmpty nearbyData.
Proof.
  apply (@filterNearbyFeatures_empties [bridges]).
  left. apply nle_Num_false. lra.
Defined.

(** A radius of 5 km against one of 10 km. *)
Lemma filterNearbyFeatures_radius_monotone_witness :
  exists small large,
    filterNearbyFeatures [bridges] (Num 14.5995) (Num 120.9842) (Num 5) = Ok small
    /\ filterNearbyFeatures [bridges] (Num 14.5995) (Num 120.9842) (Num 10) = Ok large
    /\ Filtered small large.
Proof.
  apply filterNearbyFeatures_radius_monotone. apply nle_Num. lra.
Defined.




(** ** The component state, continued *)

(** X7.  The last valid reference wins: an update with a reference that is
    a number and not [NaN] gives the same state whatever update came just
    before it, because the filter always reads the complete view. *)
Theorem updateNearbyFeatures_last_wins
        (previousLat previousLon : value) (lat lon : number) (s : MapState) :
  isNaN lat || isNaN lon = false ->
  updateNearbyFeatures (Number lat) (Number lon)
    (updateNearbyFeatures previousLat previousLon s)
  = updateNearbyFeatures (Number lat) (Number lon) s.
Proof.
  intros Hvalid. unfold updateNearbyFeatures at 2.
  destruct (length (allGeoJsonData s) =? 0) eqn:El; [reflexivity |].
  assert (Hset : forall d,
             updateNearbyFeatures (Number lat) (Number lon) (setGeoJsonData d s)
             = updateNearbyFeatures (Number lat) (Number lon) s).
  { intros d. unfold updateNearbyFeatures. cbn [allGeoJsonData setGeoJsonData].
    rewrite El, Hvalid.
    destruct (filterNearbyFeatures (allGeoJsonData s) lat lon (Num 10)); reflexivity. }
  destruct previousLat as [| | | a | | |]; try reflexivity.
  destruct previousLon as [| | | b | | |]; try reflexivity.
  destruct (isNaN a || isNaN b); [reflexivity |].
  destruct (filterNearbyFeatures (allGeoJsonData s) a b (Num 10)); apply Hset.
Qed.

(** A pan to Quiapo after a pan to Manila. *)
Lemma updateNearbyFeatures_last_wins_witness :
  updateNearbyFeatures (Number (Num 14.6050)) (Number (Num 120.9800))
    (updateNearbyFeatures (Number (Num 14.5995)) (Number (Num 120.9842)) loadedState)
  = updateNearbyFeatures (Number (Num 14.6050)) (Number (Num 120.9800)) loadedState.
Proof.
  apply updateNearbyFeatures_last_wins. reflexivity.
Defined.

Lemma updateNearbyFeatures_frame (userLat userLon : value) (s : MapState) :
  location (updateNearbyFeatures userLat userLon s) = location s
  /\ region (updateNearbyFeatures userLat userLon s) = region s
  /\ allGeoJsonData (updateNearbyFeatures userLat userLon s) = allGeoJsonData s.
Proof.
  unfold updateNearbyFeatures.
  destruct (length (allGeoJsonData s) =? 0); [auto |].
  destruct userLat as [| | | a | | |]; auto.
  destruct userLon as [| | | b | | |]; auto.
  destruct (isNaN a || isNaN b); [auto |].
  destruct (filterNearbyFeatures (allGeoJsonData s) a b (Num 10)); auto.
Qed.

(** X8.  [handleRegionChange] always stores the new region and never touches
    the location or the complete view; when the centre of the region has a
    [NaN] coordinate it does nothing else, so the map moves while the nearby
    view stays as it was. *)
Theorem handleRegionChange_region (newRegion : Region.t) (s : MapState) :
  region (handleRegionChange newRegion s) = newRegion
  /\ location (handleRegionChange newRegion s) = location s
  /\ allGeoJsonData (handleRegionChange newRegion s) = allGeoJsonData s
  /\ (forall lon dLat dLon : number,
         handleRegionChange (Region.make NaN lon dLat dLon) s
         = setRegion (Region.make NaN lon dLat dLon) s)
  /\ (forall lat dLat dLon : number,
         handleRegionChange (Region.make lat NaN dLat dLon) s
         = setRegion (Region.make lat NaN dLat dLon) s).
Proof.
  unfold handleRegionChange.
  destruct (updateNearbyFeatures_frame
              (Number (Region.latitude newRegion)) (Number (Region.longitude newRegion))
              (setRegion newRegion s)) as [Hl [Hr Ha]].
  repeat split; try assumption.
  - intros lon dLat dLon. unfold updateNearbyFeatures. cbn [Region.latitude isNaN orb].
    destruct (length _ =? 0); reflexivity.
  - intros lat dLat dLon. unfold updateNearbyFeatures.
    cbn [Region.latitude Region.longitude isNaN]. rewrite orb_true_r.
    destruct (length _ =? 0); reflexivity.
Qed.

(** ** Loading, continued *)

Lemma lookup_app_last (k k1 : string) (v1 : value) (l : list (string * value)) :
  lookup k (l ++ [(k1, v1)]) =
  match lookup k l with
  | Some v => Some v
  | None => if String.eqb k k1 then Some v1 else None
  end.
Proof.
  induction l as [| [k' v'] l IH]; cbn; [reflexivity |].
  destruct (String.eqb k k'); [reflexivity | exact IH].
Qed.

Lemma lookup_setField (k k1 : string) (v1 : value) (fields : list (string * value)) :
  lookup k (setField k1 v1 fields) =
  if String.eqb k k1 then Some v1 else lookup k fields.
Proof.
  destruct (String.eqb_spec k k1) as [-> | Hne].
  - apply lookup_setField_same.
  - apply lookup_setField_other. exact Hne.
Qed.

(** A spread writes its entries in order: the last entry for a key wins, and
    a key the entries do not have keeps its value. *)
Lemma lookup_spread (k : string) (entries fields : list (string * value)) :
  lookup k (spread entries fields) =
  match lookup k (rev entries) with
  | Some v => Some v
  | None => lookup k fields
  end.
Proof.
  unfold spread. revert fields.
  induction entries as [| [k1 v1] entries IH]; intros fields; [reflexivity |].
  cbn [fold_left fst snd rev]. rewrite IH, lookup_app_last, lookup_setField.
  destruct (lookup k (rev entries)); [reflexivity |].
  destruct (String.eqb k k1); reflexivity.
Qed.

Section Properties.

Variable JSON_parse : string -> result value.

Lemma toFeature_shape (p : project) :
  toFeature JSON_parse p = Null
  \/ exists geometry,
      toFeature JSON_parse p =
      Obj [("type", Str "Feature"); ("geometry", geometry);
           ("properties", Obj (spread (ownEntries (raw p)) (columns p)))]%string.
Proof.
  unfold toFeature.
  destruct (geom p) as [| | b | n | text | l | fields];
    try (right; eexists; reflexivity).
  destruct (JSON_parse text) as [geometry | e]; cbn [bind catchWith];
    [right; eexists; reflexivity | left; reflexivity].
Qed.

(** X9.  Every ingested feature carries a [properties] object in which each
    entry of the row's [raw] overrides the column of the same name, and a
    column [raw] does not mention keeps the value of the row. *)
Theorem geoJsonFeatures_properties (projects : list project) (feature : value) :
  In feature (geoJsonFeatures JSON_parse projects) ->
  exists (p : project) (properties : list (string * value)),
    In p projects
    /\ get feature "properties" = Ok (Obj properties)
    /\ forall k : string,
        lookup k properties =
        match lookup k (rev (ownEntries (raw p))) with
        | Some v => Some v
        | None => lookup k (columns p)
        end.
Proof.
  unfold geoJsonFeatures. intros Hin.
  apply filter_In in Hin. destruct Hin as [Hin Hnot].
  apply in_map_iff in Hin. destruct Hin as [p [Hp Hin]].
  apply filter_In in Hin. destruct Hin as [Hin _].
  exists p. destruct (toFeature_shape p) as [Hnull | [geometry Hshape]].
  - rewrite Hnull in Hp. subst feature. discriminate Hnot.
  - rewrite Hshape in Hp. subst feature. eexists. split; [exact Hin |].
    split; [reflexivity |]. intros k. apply lookup_spread.
Qed.

End Properties.

(** The row of Jones Bridge. *)
Lemma geoJsonFeatures_properties_witness :
  exists (p : project) (properties : list (string * value)),
    In p [bridgeProject]
    /\ get (toFeature rejectAll bridgeProject) "properties" = Ok (Obj properties)
    /\ forall k : string,
        lookup k properties =
        match lookup k (rev (ownEntries (raw p))) with
        | Some v => Some v
        | None => lookup k (columns p)
        end.
Proof.
  apply (@geoJsonFeatures_properties rejectAll [bridgeProject]).
  left. reflexivity.
Defined.

(** ** Validation of the bundled collections *)

Lemma validateDataset_cases (data : value) :
  validateDataset data = Ok (if hasFeaturesArray data then data else emptyCollection).
Proof.
  unfold validateDataset, hasFeaturesArray.
  destruct data as [| | b | n | s | l | fields]; try reflexivity.
  - destruct b; reflexivity.
  - destruct (truthy (Number n)); reflexivity.
  - destruct (truthy (Str s)); reflexivity.
  - cbn [truthy negb get].
    destruct (lookup "features" fields) as [features |]; [| reflexivity].
    cbn [bind].
    destruct features as [| | b | n | s | l | fs]; try reflexivity.
    + destruct b; reflexivity.
    + destruct (truthy (Number n)); reflexivity.
    + destruct (truthy (Str s)); reflexivity.
Qed.

Lemma mapM_pure (A B : Type) (f : A -> result B) (g : A -> B) (xs : list A) :
  (forall x, f x = Ok (g x)) -> mapM f xs = Ok (map g xs).
Proof.
  intros Hf. induction xs as [| x rest IH]; [reflexivity |].
  cbn [map mapM]. rewrite Hf, IH. reflexivity.
Qed.

Lemma validatedData_map (datasets : list value) :
  validatedData datasets =
  Ok (map (fun data => if hasFeaturesArray data then data else emptyCollection)
        datasets).
Proof. apply mapM_pure. apply validateDataset_cases. Qed.

(** X10.  Validation never throws and never loses a feature: a dataset with
    a [features] array is kept as it is, any other becomes the empty
    collection, so every validated dataset has a [features] array with the
    features of the original. *)
Theorem validatedData_valid (datasets : list value) :
  exists validated,
    validatedData datasets = Ok validated
    /\ Forall2 (fun v data =>
                 v = (if hasFeaturesArray data then data else emptyCollection)
                 /\ hasFeaturesArray v = true
                 /\ featuresOf v = featuresOf data)
         validated datasets.
Proof.
  rewrite validatedData_map. eexists. split; [reflexivity |].
  induction datasets as [| data rest IH]; cbn [map]; constructor; [| exact IH].
  split; [reflexivity |].
  destruct (hasFeaturesArray data) eqn:E.
  - split; [exact E | reflexivity].
  - split; [reflexivity |]. rewrite (featuresOf_no_array _ E). reflexivity.
Qed.

(** X11.  On validated data the guard of the filter never fires: every
    dataset the filter returns has all the fields of the validated dataset
    but [features] unchanged. *)
Theorem filter_after_validation
        (datasets validated : list value) (userLat userLon radiusKm : number) :
  validatedData datasets = Ok validated ->
  exists nearbyData,
    filterNearbyFeatures validated userLat userLon radiusKm = Ok nearbyData
    /\ Forall2 (fun nearby v =>
                 forall k : string, k <> "features"%string -> get nearby k = get v k)
         nearbyData validated.
Proof.
  rewrite validatedData_map. intros H. injection H as <-.
  unfold filterNearbyFeatures.
  induction datasets as [| data rest IH]; cbn [map mapM].
  - exists []. split; [reflexivity | constructor].
  - rewrite filterDataset_cases. destruct IH as [others [-> Hall]]. cbn [bind].
    eexists. split; [reflexivity |]. constructor; [| exact Hall].
    intros k Hk.
    assert (Hv : hasFeaturesArray
                   (if hasFeaturesArray data then data else emptyCollection) = true)
      by (destruct (hasFeaturesArray data) eqn:E; [exact E | reflexivity]).
    rewrite Hv.
    destruct (if hasFeaturesArray data then data else emptyCollection);
      try discriminate Hv.
    cbn [get fieldsOf]. rewrite lookup_setField_other by exact Hk. reflexivity.
Qed.

(** Two bundled modules, one of them without a collection. *)
Lemma filter_after_validation_witness :
  exists nearbyData,
    filterNearbyFeatures [bridges; emptyCollection]
      (Num 14.5995) (Num 120.9842) (Num 10) = Ok nearbyData
    /\ Forall2 (fun nearby v =>
                 forall k : string, k <> "features"%string -> get nearby k = get v k)
         nearbyData [bridges; emptyCollection].
Proof.
  apply (@filter_after_validation [bridges; Undefined]). reflexivity.
Defined.

(** ** The layer component, continued *)

Lemma orElse_truthy (a b : value) : truthy b = true -> truthy (orElse a b) = true.
Proof. intros H. unfold orElse. destruct (truthy a) eqn:E; assumption. Qed.

Section Shapes.

Variable strokeColor : string.
Variable strokeWidth : Z.

Lemma renderLine_shape (feature : value) (index : nat) (lineCoords : value)
      (lineIndex : nat) (e : element) :
  renderLine strokeColor strokeWidth feature index lineCoords lineIndex = Ok e ->
  e = Nothing
  \/ exists coordinates,
      e = Polyline (multiline index lineIndex) coordinates strokeColor strokeWidth
            None feature.
Proof.
  unfold renderLine. destruct (asArray lineCoords) as [points |]; cbn [bind];
    [| discriminate].
  destruct (length (toCoordinates points) =? 0); intros H; injection H as <-;
    [left; reflexivity | right; eexists; reflexivity].
Qed.

(** What [renderFeature] can return. *)
Lemma renderFeature_shape (feature : value) (index : nat) (e : element) :
  renderFeature strokeColor strokeWidth feature index = Ok e ->
  e = Nothing
  \/ (exists coordinates fill k,
         e = Polyline k coordinates strokeColor strokeWidth fill feature
         /\ (k = line index \/ k = polygon index))
  \/ (exists coordinate title description,
         e = Marker (point index) coordinate title description feature
         /\ truthy title = true /\ truthy description = true)
  \/ (exists lines children,
         e = Fragment (Some (multiline_container index)) children
         /\ mapiM (renderLine strokeColor strokeWidth feature index) 0 lines
            = Ok children).
Proof.
  unfold renderFeature.
  repeat
    match goal with
    | |- Ok _ = Ok _ -> _ =>
        let H := fresh "H" in intros H; injection H as <-
    | |- Throw _ = Ok _ -> _ => discriminate
    | |- context [mapiM ?f ?s ?l] =>
        let E := fresh "E" in
        destruct (mapiM f s l) eqn:E; cbn [bind]
    | |- context [bind ?m _] => destruct m; cbn [bind]
    | |- context [if ?b then _ else _] => destruct b
    end;
    first
      [ left; reflexivity
      | right; left; do 3 eexists; split; [reflexivity | auto]
      | right; right; left; do 3 eexists; split; [reflexivity |];
        split; apply orElse_truthy; reflexivity
      | right; right; right; do 2 eexists; split; [reflexivity | eassumption] ].
Qed.

End Shapes.

Lemma mapiM_Forall_In (A B : Type) (f : A -> nat -> result B) (P : B -> Prop)
      (xs : list A) :
  forall start ys,
    (forall x i y, In x xs -> f x i = Ok y -> P y) ->
    mapiM f start xs = Ok ys -> Forall P ys.
Proof.
  induction xs as [| x rest IH]; intros start ys Hf; cbn [mapiM].
  - intros H. injection H as <-. constructor.
  - destruct (f x start) as [y |] eqn:Ey; cbn [bind]; [| discriminate].
    destruct (mapiM f (S start) rest) as [ys' |] eqn:Er; cbn [bind]; [| discriminate].
    intros H. injection H as <-. constructor.
    + eapply Hf; [left; reflexivity | exact Ey].
    + eapply IH; [| exact Er]. intros x' i y' Hin. apply Hf. right. exact Hin.
Qed.

(** The array the component maps over is the [features] of the data. *)
Lemma GeoJSONLayer_items (strokeColor : string) (strokeWidth : Z) (data : value)
      (e : element) :
  GeoJSONLayer strokeColor strokeWidth data = Ok e ->
  e = Nothing
  \/ exists children,
      e = Fragment None children
      /\ mapiM (renderFeature strokeColor strokeWidth) 0 (featuresOf data)
         = Ok children.
Proof.
  unfold GeoJSONLayer, featuresOf.
  destruct (negb (truthy data)); [intros H; injection H as <-; left; reflexivity |].
  destruct (get data "features") as [features |]; cbn [bind]; [| discriminate].
  destruct (negb (truthy features));
    [intros H; injection H as <-; left; reflexivity |].
  destruct features as [| | | | | items |]; cbn [asArray bind]; try discriminate.
  cbn [elements].
  destruct (mapiM (renderFeature strokeColor strokeWidth) 0 items) as [children |];
    cbn [bind]; [| discriminate].
  intros H. injection H as <-. right. exists children. split; reflexivity.
Qed.

Lemma renderFeature_primitives (strokeColor : string) (strokeWidth : Z)
      (feature : value) (index : nat) (e : element) :
  renderFeature strokeColor strokeWidth feature index = Ok e ->
  Forall (fun p => onPressOf p = Some feature /\ labelled p) (primitives e).
Proof.
  intros H. apply renderFeature_shape in H.
  destruct H as [-> | [[coordinates [fill [k [-> _]]]]
                      | [[coordinate [title [description [-> [Ht Hd]]]]]
                        | [lines [children [-> Hrun]]]]]].
  - constructor.
  - repeat constructor.
  - repeat constructor; assumption.
  - cbn [primitives]. apply Forall_flat_map.
    eapply mapiM_Forall; [| exact Hrun].
    intros lineCoords lineIndex child Hchild. apply renderLine_shape in Hchild.
    destruct Hchild as [-> | [coordinates ->]]; repeat constructor.
Qed.

Lemma GeoJSONLayer_primitives (strokeColor : string) (strokeWidth : Z) (data : value)
      (e : element) :
  GeoJSONLayer strokeColor strokeWidth data = Ok e ->
  Forall (fun p => reportsFeatureOf data p /\ labelled p) (primitives e).
Proof.
  intros H. apply GeoJSONLayer_items in H.
  destruct H as [-> | [children [-> Hrun]]]; [constructor |].
  cbn [primitives]. apply Forall_flat_map.
  eapply mapiM_Forall_In; [| exact Hrun].
  intros feature index child Hin Hchild.
  apply renderFeature_primitives in Hchild.
  eapply Forall_impl; [| exact Hchild].
  intros p [Hp Hl]. split; [| exact Hl]. exists feature. split; assumption.
Qed.

(** X12.  Whatever the data, every primitive a layer draws reports, when
    pressed, a feature of that very collection. *)
Theorem GeoJSONLayer_selection (strokeColor : string) (strokeWidth : Z) (data : value)
        (e : element) :
  GeoJSONLayer strokeColor strokeWidth data = Ok e ->
  Forall (reportsFeatureOf data) (primitives e).
Proof.
  intros H. apply GeoJSONLayer_primitives in H.
  eapply Forall_impl; [| exact H]. intros p [Hp _]. exact Hp.
Qed.


(** The layer of a bridge and a road. *)
Lemma GeoJSONLayer_selection_witness :
  Forall (reportsFeatureOf (GeoJSON.encodeCollection [bridge; road]))
    (primitives sampleLayer).
Proof.
  apply (@GeoJSONLayer_selection "#2ECC71" 2). reflexivity.
Defined.


(** *** Keys *)

Lemma keysOf_positions (children : list element) :
  forall start,
    (forall n child k,
        nth_error children n = Some child -> keyOf child = Some k ->
        keyPosition k = start + n) ->
    NoDup (keysOf children)
    /\ forall k, In k (keysOf children) -> start <= keyPosition k.
Proof.
  induction children as [| child rest IH]; intros start Hpos.
  - split; [constructor | intros k []].
  - destruct (IH (S start)) as [Hnodup Hge].
    { intros n c k Hn Hk. rewrite (Hpos (S n) c k Hn Hk). lia. }
    unfold keysOf. cbn [flat_map]. fold (keysOf rest).
    destruct (keyOf child) as [k0 |] eqn:Ek; cbn [app].
    + pose proof (Hpos 0 child k0 eq_refl Ek) as H0. rewrite Nat.add_0_r in H0.
      split.
      * constructor; [| exact Hnodup].
        intros Hin. apply Hge in Hin. lia.
      * intros k [<- | Hin]; [lia |]. apply Hge in Hin. lia.
    + split; [exact Hnodup |]. intros k Hin. apply Hge in Hin. lia.
Qed.

Lemma each_uniqueKeys (children : list element) :
  Forall uniqueKeys children ->
  (fix each (l : list element) : Prop :=
     match l with
     | [] => True
     | child :: rest => uniqueKeys child /\ each rest
     end) children.
Proof. induction 1; [exact I | split; assumption]. Qed.

Section Keys.

Variable strokeColor : string.
Variable strokeWidth : Z.

Lemma renderLines_uniqueKeys (feature : value) (index : nat) (lines : list value)
      (children : list element) :
  mapiM (renderLine strokeColor strokeWidth feature index) 0 lines = Ok children ->
  NoDup (keysOf children) /\ Forall uniqueKeys children.
Proof.
  intros Hrun. split.
  - apply (keysOf_positions children 0).
    intros n child k Hn Hk.
    destruct (mapiM_nth_error _ _ _ _ Hrun Hn) as [lineCoords [_ Hchild]].
    apply renderLine_shape in Hchild.
    destruct Hchild as [-> | [coordinates ->]]; [discriminate Hk |].
    injection Hk as <-. reflexivity.
  - eapply mapiM_Forall; [| exact Hrun].
    intros lineCoords lineIndex child Hchild. apply renderLine_shape in Hchild.
    destruct Hchild as [-> | [coordinates ->]]; exact I.
Qed.

Lemma renderFeature_key (feature : value) (index : nat) (e : element) (k : key) :
  renderFeature strokeColor strokeWidth feature index = Ok e ->
  keyOf e = Some k -> keyPosition k = index.
Proof.
  intros H Hk. apply renderFeature_shape in H.
  destruct H as [-> | [[coordinates [fill [k' [-> [-> | ->]]]]]
                      | [[coordinate [title [description [-> _]]]]
                        | [lines [children [-> _]]]]]];
    try discriminate Hk; injection Hk as <-; reflexivity.
Qed.

Lemma renderFeature_uniqueKeys (feature : value) (index : nat) (e : element) :
  renderFeature strokeColor strokeWidth feature index = Ok e -> uniqueKeys e.
Proof.
  intros H. apply renderFeature_shape in H.
  destruct H as [-> | [[coordinates [fill [k' [-> _]]]]
                      | [[coordinate [title [description [-> _]]]]
                        | [lines [children [-> Hrun]]]]]];
    try exact I.
  destruct (renderLines_uniqueKeys _ _ _ Hrun) as [Hnodup Hall].
  cbn [uniqueKeys]. split; [exact Hnodup | apply each_uniqueKeys; exact Hall].
Qed.

(** X14.  In the tree a layer renders, no two sibling elements have the same
    key: the children of the layer are keyed by kind and feature index, the
    polylines of a MultiLineString by feature index and line index. *)
Theorem GeoJSONLayer_uniqueKeys (data : value) (e : element) :
  GeoJSONLayer strokeColor strokeWidth data = Ok e -> uniqueKeys e.
Proof.
  intros H. apply GeoJSONLayer_items in H.
  destruct H as [-> | [children [-> Hrun]]]; [exact I |].
  cbn [uniqueKeys]. split.
  - apply (keysOf_positions children 0).
    intros n child k Hn Hk.
    destruct (mapiM_nth_error _ _ _ _ Hrun Hn) as [feature [_ Hchild]].
    apply (renderFeature_key _ _ Hchild Hk).
  - apply each_uniqueKeys. eapply mapiM_Forall; [| exact Hrun].
    intros feature index child. apply renderFeature_uniqueKeys.
Qed.

End Keys.

Lemma GeoJSONLayer_uniqueKeys_witness : uniqueKeys sampleLayer.
Proof.
  apply (@GeoJSONLayer_uniqueKeys "#2ECC71" 2
           (GeoJSON.encodeCollection [bridge; road])).
  reflexivity.
Defined.

(** *** Exceptions *)

Lemma mapiM_throws (A B : Type) (f : A -> nat -> result B) (xs : list A) (bad : A) :
  In bad xs ->
  (forall i, f bad i = Throw TypeError) ->
  (forall x i e, f x i = Throw e -> e = TypeError) ->
  forall start, mapiM f start xs = Throw TypeError.
Proof.
  intros Hin Hbad Hall. induction xs as [| x rest IH]; intros start; [destruct Hin |].
  cbn [mapiM]. destruct Hin as [-> | Hin].
  - rewrite Hbad. reflexivity.
  - destruct (f x start) as [y | e] eqn:Ex; cbn [bind].
    + rewrite (IH Hin). reflexivity.
    + rewrite (Hall _ _ _ Ex). reflexivity.
Qed.

Section Throws.

Variable strokeColor : string.
Variable strokeWidth : Z.

Lemma renderLine_TypeError (feature : value) (index : nat) (lineCoords : value)
      (lineIndex : nat) (e : error) :
  renderLine strokeColor strokeWidth feature index lineCoords lineIndex = Throw e ->
  e = TypeError.
Proof.
  unfold renderLine. destruct lineCoords; cbn [asArray bind];
    try (intros H; injection H as <-; reflexivity).
  destruct (length _ =? 0); discriminate.
Qed.

Lemma get_TypeError (v : value) (k : string) (e : error) :
  get v k = Throw e -> e = TypeError.
Proof.
  destruct v; cbn; try discriminate; try (intros H; injection H as <-; reflexivity).
  destruct (lookup k fields); discriminate.
Qed.

Lemma mapiM_TypeError (A B : Type) (f : A -> nat -> result B) (xs : list A) :
  (forall x i e, f x i = Throw e -> e = TypeError) ->
  forall start e, mapiM f start xs = Throw e -> e = TypeError.
Proof.
  intros Hall. induction xs as [| x rest IH]; intros start e; cbn [mapiM];
    [discriminate |].
  destruct (f x start) as [y | e'] eqn:Ex; cbn [bind].
  - destruct (mapiM f (S start) rest) as [ys | e''] eqn:Er; cbn [bind];
      [discriminate |].
    intros H. injection H as <-. eapply IH. exact Er.
  - intros H. injection H as <-. eapply Hall. exact Ex.
Qed.

(** The only exception the component raises is [TypeError]. *)
Lemma renderFeature_TypeError (feature : value) (index : nat) (e : error) :
  renderFeature strokeColor strokeWidth feature index = Throw e -> e = TypeError.
Proof.
  unfold renderFeature.
  repeat
    match goal with
    | |- Ok _ = Throw _ -> _ => discriminate
    | |- Throw ?x = Throw _ -> _ =>
        let H := fresh "H" in intros H; injection H as <-
    | |- context [mapiM ?f ?s ?l] =>
        let E := fresh "E" in
        destruct (mapiM f s l) eqn:E; cbn [bind]
    | |- context [bind (get ?v ?k) _] =>
        let E := fresh "E" in
        destruct (get v k) eqn:E; cbn [bind]
    | |- context [if ?b then _ else _] => destruct b
    end;
    try (eapply get_TypeError; eassumption).
  all: eapply mapiM_TypeError; [| eassumption].
  all: intros x i e'; apply renderLine_TypeError.
Qed.

Lemma renderFeature_undrawable (feature : value) (index : nat) :
  Undrawable feature ->
  renderFeature strokeColor strokeWidth feature index = Throw TypeError.
Proof.
  intros [geometry coordinates properties Hg Ht Hc Hvalid Hp Hnone
         | geometry lines line Hg Ht Hc Hin Hline].
  - unfold renderFeature.
    rewrite (get_defined_truthy _ _ Hg) by (intros ->; discriminate Ht).
    cbn [negb]. rewrite Hg. cbn [bind].
    rewrite (get_defined_truthy _ _ Ht) by discriminate.
    cbn [negb]. rewrite Ht, Hc. cbn [bind truthy negb isStr String.eqb Ascii.eqb Bool.eqb].
    unfold isValidCoord in Hvalid.
    apply andb_prop in Hvalid. destruct Hvalid as [Hvalid Hlen].
    apply andb_prop in Hvalid. destruct Hvalid as [Htruthy Harr].
    rewrite Htruthy, Harr. cbn [negb orb].
    replace (length (elements coordinates) <? 2) with false
      by (symmetry; apply Nat.ltb_ge; apply Nat.leb_le; exact Hlen).
    rewrite Hp. cbn [bind]. destruct Hnone as [-> | ->]; reflexivity.
  - unfold renderFeature.
    rewrite (get_defined_truthy _ _ Hg) by (intros ->; discriminate Ht).
    cbn [negb]. rewrite Hg. cbn [bind].
    rewrite (get_defined_truthy _ _ Ht) by discriminate.
    cbn [negb]. rewrite Ht, Hc.
    cbn [bind truthy negb isStr String.eqb Ascii.eqb Bool.eqb isArray orb elements].
    rewrite (@mapiM_throws _ _ (renderLine strokeColor strokeWidth feature index)
               lines line Hin).
    + reflexivity.
    + intros i. apply renderLine_not_array. exact Hline.
    + intros x i e. apply renderLine_TypeError.
Qed.

(** X15.  One feature the component cannot draw takes the whole layer down:
    if the collection holds a Point with two coordinates whose [properties]
    is [null] or missing, or a MultiLineString with a line that is not an
    array, rendering the layer throws a [TypeError]. *)
Theorem GeoJSONLayer_undrawable (data : value) (features : list value) (feature : value) :
  get data "features" = Ok (Arr features) ->
  In feature features ->
  Undrawable feature ->
  GeoJSONLayer strokeColor strokeWidth data = Throw TypeError.
Proof.
  intros Hf Hin Hbad. unfold GeoJSONLayer.
  rewrite (get_defined_truthy _ _ Hf) by discriminate.
  cbn [negb]. rewrite Hf. cbn [bind truthy negb asArray].
  rewrite (@mapiM_throws _ _ (renderFeature strokeColor strokeWidth)
             features feature Hin).
  - reflexivity.
  - intros i. apply renderFeature_undrawable. exact Hbad.
  - intros x i e. apply renderFeature_TypeError.
Qed.

End Throws.

Lemma barePoint_undrawable : Undrawable barePoint.
Proof.
  eapply Undrawable_Point with (properties := Undefined);
    try reflexivity.
  right. reflexivity.
Qed.

(** A collection of one Point without [properties], after a bridge. *)
Lemma GeoJSONLayer_undrawable_witness :
  GeoJSONLayer "#2ECC71" 2
    (Obj [("type", Str "FeatureCollection");
          ("features", Arr [GeoJSON.encodeFeature bridge; barePoint])]%string)
  = Throw TypeError.
Proof.
  apply (@GeoJSONLayer_undrawable "#2ECC71" 2 _
           [GeoJSON.encodeFeature bridge; barePoint] barePoint).
  - reflexivity.
  - right. left. reflexivity.
  - exact barePoint_undrawable.
Defined.

(** *** Well-formed collections *)

Lemma onPressOf_polylines (feature : value) (prims : list element) :
  Forall (isPolylineOf feature) prims ->
  map onPressOf prims = repeat (Some feature) (length prims).
Proof.
  induction 1 as [| p prims Hp _ IH]; [reflexivity |].
  cbn [map length repeat]. rewrite IH.
  destruct p; try contradiction. destruct Hp as [_ ->]. reflexivity.
Qed.

Lemma hasValidVertex_positions_any (cs : list GeoJSON.Coordinate) :
  hasValidVertex (map GeoJSON.position cs) = negb (length cs =? 0).
Proof. destruct cs; reflexivity. Qed.

Lemma filter_map_swap (A B : Type) (f : A -> B) (p : B -> bool) (l : list A) :
  filter p (map f l) = map f (filter (fun x => p (f x)) l).
Proof.
  induction l as [| x l IH]; [reflexivity |].
  cbn. destruct (p (f x)); cbn; rewrite IH; reflexivity.
Qed.

Lemma encodeFeature_MultiLineString (lines : list (list GeoJSON.Coordinate))
      (properties : list (string * value)) :
  GeoJSON.encodeFeature
    {| GeoJSON.geometry := GeoJSON.MultiLineString lines;
       GeoJSON.properties := properties |}
  = multiLineString (map (map GeoJSON.position) lines) properties.
Proof.
  unfold GeoJSON.encodeFeature, multiLineString, GeoJSON.encodeGeometry,
    GeoJSON.positions.
  cbn [GeoJSON.geometry GeoJSON.properties]. rewrite map_map. reflexivity.
Qed.

Section Encoded.

Variable strokeColor : string.
Variable strokeWidth : Z.

(** A well-formed feature is always drawn, with as many primitives as its
    geometry asks for, each reporting the feature. *)
Lemma renderFeature_encoded (f : GeoJSON.Feature) (index : nat) :
  exists e,
    renderFeature strokeColor strokeWidth (GeoJSON.encodeFeature f) index = Ok e
    /\ map onPressOf (primitives e)
       = repeat (Some (GeoJSON.encodeFeature f))
           (primitiveCount (GeoJSON.geometry f)).
Proof.
  destruct f as [g props]. cbn [GeoJSON.geometry].
  destruct g as [c | cs | lines | rings].
  - unfold renderFeature, GeoJSON.encodeFeature, GeoJSON.encodeGeometry.
    cbn [GeoJSON.geometry GeoJSON.properties truthy negb get lookup String.eqb
           Ascii.eqb Bool.eqb bind isStr isArray orb elements GeoJSON.position
           length Nat.ltb Nat.leb].
    destruct (lookup "BR_NAME" props), (lookup "name" props),
      (lookup "ROAD_NAME" props), (lookup "description" props);
      cbn [bind]; eexists; split; reflexivity.
  - unfold renderFeature, GeoJSON.encodeFeature, GeoJSON.encodeGeometry,
      GeoJSON.positions.
    cbn [GeoJSON.geometry GeoJSON.properties truthy negb get lookup String.eqb
           Ascii.eqb Bool.eqb bind isStr isArray orb elements].
    rewrite toCoordinates_positions.
    destruct cs as [| c cs]; eexists; split; reflexivity.
  - rewrite encodeFeature_MultiLineString.
    set (feature := multiLineString (map (map GeoJSON.position) lines) props).
    destruct (renderLines strokeColor strokeWidth feature index
                (map (map GeoJSON.position) lines) 0)
      as [children [Hrun [Hcoords [Hpoly _]]]].
    exists (Fragment (Some (multiline_container index)) children). split.
    + unfold renderFeature, feature, multiLineString.
      cbn [truthy negb get lookup String.eqb Ascii.eqb Bool.eqb bind isStr isArray
             orb elements].
      fold (multiLineString (map (map GeoJSON.position) lines) props).
      fold feature. rewrite Hrun. reflexivity.
    + cbn [primitives]. rewrite (onPressOf_polylines Hpoly). f_equal.
      apply (f_equal (@length _)) in Hcoords.
      rewrite !length_map in Hcoords. rewrite Hcoords.
      rewrite filter_map_swap, length_map. cbn [primitiveCount].
      f_equal. apply filter_ext. intros cs. apply hasValidVertex_positions_any.
  - rewrite encodeFeature_Polygon.
    destruct rings as [| outer holes].
    + eexists. split; reflexivity.
    + cbn [map]. rewrite polygonOf_rendering, hasValidVertex_positions_any.
      destruct outer as [| c cs]; eexists; split; reflexivity.
Qed.

Lemma renderFeatures_encoded (features : list GeoJSON.Feature) :
  forall start,
  exists children,
    mapiM (renderFeature strokeColor strokeWidth) start
      (map GeoJSON.encodeFeature features) = Ok children
    /\ map onPressOf (flat_map primitives children) = pressTargets features.
Proof.
  induction features as [| f rest IH]; intros start.
  - exists []. split; reflexivity.
  - destruct (renderFeature_encoded f start) as [e [He Hp]].
    destruct (IH (S start)) as [children [Hrun Hrest]].
    exists (e :: children). split.
    + cbn [map mapiM]. rewrite He, Hrun. reflexivity.
    + cbn [flat_map]. unfold pressTargets. cbn [flat_map].
      rewrite map_app, Hp, Hrest. reflexivity.
Qed.

Lemma GeoJSONLayer_encoded (features : list GeoJSON.Feature) :
  exists e,
    GeoJSONLayer strokeColor strokeWidth (GeoJSON.encodeCollection features) = Ok e
    /\ map onPressOf (primitives e) = pressTargets features.
Proof.
  destruct (renderFeatures_encoded features 0) as [children [Hrun Hp]].
  exists (Fragment None children). split; [| exact Hp].
  unfold GeoJSONLayer, GeoJSON.encodeCollection.
  cbn [truthy negb get lookup String.eqb Ascii.eqb Bool.eqb bind asArray].
  rewrite Hrun. reflexivity.
Qed.

End Encoded.

Lemma renderLayers_encoded_from (collections : list (list GeoJSON.Feature)) :
  forall start,
  exists layers,
    mapiM (fun data index =>
             GeoJSONLayer (strokeColorOf index) (strokeWidthOf index) data)
      start (map GeoJSON.encodeCollection collections) = Ok layers
    /\ map (fun e => map onPressOf (primitives e)) layers
       = map pressTargets collections.
Proof.
  induction collections as [| features rest IH]; intros start.
  - exists []. split; reflexivity.
  - destruct (GeoJSONLayer_encoded (strokeColorOf start) (strokeWidthOf start) features)
      as [e [He Hp]].
    destruct (IH (S start)) as [layers [Hrun Hrest]].
    exists (e :: layers). split.
    + cbn [map mapiM]. rewrite He, Hrun. reflexivity.
    + cbn [map]. rewrite Hp, Hrest. reflexivity.
Qed.

(** X16.  Collections of well-formed features are always drawn: rendering
    the layers does not throw, and the primitives of each layer report, in
    order, each feature of its collection as many times as its geometry has
    drawable parts (one for a Point, for a non-empty LineString and for a
    Polygon with a non-empty outer ring, one per non-empty line of a
    MultiLineString, none otherwise). *)
Theorem renderLayers_encoded (collections : list (list GeoJSON.Feature)) :
  exists layers,
    renderLayers (map GeoJSON.encodeCollection collections) = Ok layers
    /\ map (fun e => map onPressOf (primitives e)) layers
       = map pressTargets collections.
Proof. apply renderLayers_encoded_from. Qed.

Lemma Subsequence_refl (A : Type) (l : list A) : Subsequence l l.
Proof. induction l; constructor; assumption. Qed.

Lemma Subsequence_app (A : Type) (l1 l2 m1 m2 : list A) :
  Subsequence l1 l2 -> Subsequence m1 m2 -> Subsequence (l1 ++ m1) (l2 ++ m2).
Proof.
  intros Hl Hm. induction Hl; cbn; [exact Hm | |].
  - apply Subsequence_skip. exact IHHl.
  - apply Subsequence_keep. exact IHHl.
Qed.

Lemma Subsequence_flat_map (A B : Type) (f : A -> list B) (l1 l2 : list A) :
  Subsequence l1 l2 -> Subsequence (flat_map f l1) (flat_map f l2).
Proof.
  induction 1; cbn [flat_map]; [constructor | |].
  - change (flat_map f l1) with ([] ++ flat_map f l1).
    apply Subsequence_app; [apply Subsequence_nil_l | assumption].
  - apply Subsequence_app; [apply Subsequence_refl | assumption].
Qed.

(** X17.  On collections of well-formed features the nearby view is always
    drawn, and layer by layer its primitives report, in order, a subsequence
    of the features that the primitives of the complete view report:
    filtering only removes primitives. *)
Theorem nearby_view_drawn
        (collections : list (list GeoJSON.Feature)) (userLat userLon radiusKm : number) :
  exists nearbyData shown everything,
    filterNearbyFeatures (map GeoJSON.encodeCollection collections)
      userLat userLon radiusKm = Ok nearbyData
    /\ renderLayers nearbyData = Ok shown
    /\ renderLayers (map GeoJSON.encodeCollection collections) = Ok everything
    /\ Forall2 (fun layer complete =>
                 Subsequence (map onPressOf (primitives layer))
                   (map onPressOf (primitives complete)))
         shown everything.
Proof.
  set (kept := map (filter (GeoJSON.retained userLat userLon radiusKm)) collections).
  destruct (renderLayers_encoded_from kept 0) as [shown [Hshown Hs]].
  destruct (renderLayers_encoded_from collections 0) as [everything [Hall Ha]].
  exists (map GeoJSON.encodeCollection kept), shown, everything.
  split; [apply filterNearbyFeatures_encoded |].
  split; [exact Hshown |]. split; [exact Hall |].
  clear Hshown Hall. subst kept. revert shown everything Hs Ha.
  induction collections as [| features rest IH]; intros shown everything Hs Ha.
  - destruct shown; [| discriminate]. destruct everything; [| discriminate]. constructor.
  - destruct shown as [| layer shown]; [discriminate |].
    destruct everything as [| complete everything]; [discriminate |].
    cbn [map] in Hs, Ha. injection Hs as Hs1 Hs. injection Ha as Ha1 Ha.
    constructor; [| apply IH; assumption].
    rewrite Hs1, Ha1. unfold pressTargets.
    apply Subsequence_flat_map. apply Subsequence_filter.
Qed.

Section Pipeline.

Variable JSON_parse : string -> result value.

Lemma geoJsonFeatures_typed (rows : list project) (geometries : list GeoJSON.Geometry) :
  Forall2 (fun p g => geom p = GeoJSON.encodeGeometry g) rows geometries ->
  exists features,
    geoJsonFeatures JSON_parse rows = map GeoJSON.encodeFeature features
    /\ map (@GeoJSON.geometry) features = geometries.
Proof.
  induction 1 as [| p g rows geometries Hg _ [features [IHf IHg]]].
  - exists []. split; reflexivity.
  - exists ({| GeoJSON.geometry := g;
              GeoJSON.properties := spread (ownEntries (raw p)) (columns p) |}
            :: features).
    split; [| cbn; rewrite IHg; reflexivity].
    change (p :: rows) with ([p] ++ rows).
    rewrite geoJsonFeatures_app, IHf.
    replace (geoJsonFeatures JSON_parse [p])
      with [GeoJSON.encodeFeature
              {| GeoJSON.geometry := g;
                 GeoJSON.properties := spread (ownEntries (raw p)) (columns p) |}];
      [reflexivity |].
    unfold geoJsonFeatures. cbn [filter]. rewrite Hg.
    destruct g; cbn [GeoJSON.encodeGeometry truthy map]; unfold toFeature;
      rewrite Hg; reflexivity.
Qed.

Lemma pressTargets_length (features : list GeoJSON.Feature) :
  length (pressTargets features)
  = list_sum (map primitiveCount (map (@GeoJSON.geometry) features)).
Proof.
  unfold pressTargets. induction features as [| f rest IH]; [reflexivity |].
  cbn [flat_map map list_sum]. rewrite length_app, repeat_length, IH. reflexivity.
Qed.

(** X18.  From the rows to the map: when every row of a load carries a
    well-formed geometry object, the layers of the loaded data are drawn
    without an exception, with as many primitives as the geometries have
    drawable parts. *)
Theorem loaded_rows_drawn
        (rows : list project) (geometries : list GeoJSON.Geometry) (s : MapState) :
  Forall2 (fun p g => geom p = GeoJSON.encodeGeometry g) rows geometries ->
  exists layers,
    renderLayers (geoJsonData (loadGeoJSONData JSON_parse (QueryData (Some rows)) s))
    = Ok layers
    /\ length (flat_map primitives layers)
       = list_sum (map primitiveCount geometries).
Proof.
  intros Hrows.
  destruct (geoJsonFeatures_typed Hrows) as [features [Hf Hg]].
  destruct rows as [| p rows].
  - inversion Hrows; subst. exists []. split; reflexivity.
  - cbn [loadGeoJSONData geoJsonData setGeoJsonData]. rewrite Hf.
    destruct (renderLayers_encoded_from [features] 0) as [layers [Hrun Hp]].
    exists layers. split; [exact Hrun |].
    destruct layers as [| layer [| other layers]]; try discriminate Hp.
    cbn [map] in Hp. injection Hp as Hp.
    cbn [flat_map]. rewrite app_nil_r.
    rewrite <- (length_map onPressOf), Hp, pressTargets_length, Hg. reflexivity.
Qed.

End Pipeline.

(** A load of the row of Jones Bridge. *)
Lemma loaded_rows_drawn_witness :
  exists layers,
    renderLayers (geoJsonData loadedState) = Ok layers
    /\ length (flat_map primitives layers) = 1.
Proof.
  apply (@loaded_rows_drawn rejectAll [bridgeProject] [GeoJSON.Point manila]
           initialState).
  constructor; [reflexivity | constructor].
Defined.

(** ** The state of the screen, continued *)

Lemma Filtered_length (nearbyData data : list value) :
  Filtered nearbyData data -> length nearbyData = length data.
Proof. unfold Filtered. induction 1; cbn; congruence. Qed.

Lemma updateNearbyFeatures_lengths (userLat userLon : value) (s : MapState) :
  (length (allGeoJsonData s) <= 1 /\ length (geoJsonData s) <= 1)%nat ->
  (length (allGeoJsonData (updateNearbyFeatures userLat userLon s)) <= 1
   /\ length (geoJsonData (updateNearbyFeatures userLat userLon s)) <= 1)%nat.
Proof.
  intros [Hall Hnear]. unfold updateNearbyFeatures.
  destruct (length (allGeoJsonData s) =? 0); [split; assumption |].
  destruct userLat as [| | | lat | | |]; try (split; assumption).
  destruct userLon as [| | | lon | | |]; try (split; assumption).
  destruct (isNaN lat || isNaN lon); [split; assumption |].
  destruct (filterNearbyFeatures_subsequence (allGeoJsonData s) lat lon (Num 10))
    as [nearbyData [-> Hf]].
  cbn [setGeoJsonData allGeoJsonData geoJsonData].
  rewrite (Filtered_length Hf). split; assumption.
Qed.

Section SingleCollection.

Variable JSON_parse : string -> result value.

Lemma reachable_lengths (s : MapState) :
  reachable JSON_parse s ->
  (length (allGeoJsonData s) <= 1 /\ length (geoJsonData s) <= 1)%nat.
Proof.
  induction 1 as [| e s _ IH].
  - cbn. lia.
  - destruct e as [outcome | latitude longitude | | newRegion]; cbn [handle].
    + destruct outcome as [| | [[| p ps] |] |]; cbn; lia.
    + unfold getCurrentLocation.
      destruct (0 <? length (allGeoJsonData s));
        [apply updateNearbyFeatures_lengths |]; exact IH.
    + unfold centerOnLocation. destruct (location s) as [[latitude longitude] |];
        [apply updateNearbyFeatures_lengths |]; exact IH.
    + apply updateNearbyFeatures_lengths. exact IH.
Qed.

(** X19.  The screen that loads from the database never holds more than one
    collection, in the complete view and in the nearby view; so every
    stroke it draws has the first colour of the palette and the width 2. *)
Theorem reachable_single_collection (s : MapState) (layers : list element) :
  reachable JSON_parse s ->
  renderLayers (geoJsonData s) = Ok layers ->
  (length (allGeoJsonData s) <= 1)%nat
  /\ (length (geoJsonData s) <= 1)%nat
  /\ Forall (strokedWith "#FF6B6B" 2) (flat_map primitives layers).
Proof.
  intros Hreach Hrun. destruct (reachable_lengths Hreach) as [Hall Hnear].
  split; [exact Hall |]. split; [exact Hnear |].
  unfold renderLayers in Hrun.
  destruct (geoJsonData s) as [| data [| other rest]]; [| | cbn in Hnear; lia].
  - injection Hrun as <-. constructor.
  - cbn [mapiM] in Hrun.
    destruct (GeoJSONLayer (strokeColorOf 0) (strokeWidthOf 0) data) as [e |] eqn:E;
      cbn [bind] in Hrun; [| discriminate].
    injection Hrun as <-. cbn [flat_map]. rewrite app_nil_r.
    apply (GeoJSONLayer_stroke _ _ _ E).
Qed.

End SingleCollection.

(** The screen after the load of the row of Jones Bridge. *)
Lemma reachable_single_collection_witness :
  (length (allGeoJsonData loadedState) <= 1)%nat
  /\ (length (geoJsonData loadedState) <= 1)%nat
  /\ Forall (strokedWith "#FF6B6B" 2)
       (flat_map primitives
          [Fragment None
             [Marker (point 0) (latLngOf manila) (Str "Jones Bridge")
                (Str "DPWH Infrastructure")
                (nth 0 (featuresOf (nth 0 (geoJsonData loadedState) Null)) Null)]]).
Proof.
  apply (@reachable_single_collection rejectAll loadedState).
  - unfold loadedState. apply reachable_handle. apply reachable_initial.
  - reflexivity.
Defined.

(** ** The reports list *)

Lemma length_filter_split (A : Type) (p q : A -> bool) (l : list A) :
  (forall x, p x && q x = false) ->
  length (filter (fun x => p x || q x) l)
  = (length (filter p l) + length (filter q l))%nat.
Proof.
  intros Hdisjoint. induction l as [| x l IH]; [reflexivity |].
  cbn [filter]. specialize (Hdisjoint x).
  destruct (p x), (q x); cbn [orb length andb] in *; try discriminate; lia.
Qed.

Lemma length_filter_negb (A : Type) (p : A -> bool) (l : list A) :
  (length (filter p l) + length (filter (fun x => negb (p x)) l))%nat = length l.
Proof.
  induction l as [| x l IH]; [reflexivity |].
  cbn [filter]. destruct (p x); cbn [negb length]; lia.
Qed.

Lemma otherBadge_status (r : Reports.Report) :
  Reports.otherBadge r
  = negb ((Reports.status r =? "pending")%string
          || ((Reports.status r =? "in_progress")%string
              || (Reports.status r =? "resolved")%string)).
Proof.
  unfold Reports.otherBadge, Reports.getStatusText.
  destruct (Reports.status r =? "pending")%string; [reflexivity |].
  destruct (Reports.status r =? "in_progress")%string; [reflexivity |].
  destruct (Reports.status r =? "resolved")%string; [reflexivity |].
  destruct (Reports.status r =? "rejected")%string; reflexivity.
Qed.

(** X20.  The statistics row and the badges: Total is the sum of the three
    counters Pending, In Progress and Resolved and of the number of reports
    whose badge reads Rejected or Unknown, which no counter shows. *)
Theorem stats_total (reports : list Reports.Report) :
  Reports.total (Reports.stats reports)
  = (Reports.pending (Reports.stats reports)
     + Reports.inProgress (Reports.stats reports)
     + Reports.resolved (Reports.stats reports)
     + length (filter Reports.otherBadge reports))%nat.
Proof.
  unfold Reports.stats, Reports.countWithStatus.
  cbn [Reports.total Reports.pending Reports.inProgress Reports.resolved].
  rewrite (filter_ext _ _ otherBadge_status).
  rewrite <- (length_filter_negb
                (fun r => (Reports.status r =? "pending")%string
                          || ((Reports.status r =? "in_progress")%string
                              || (Reports.status r =? "resolved")%string))
                reports).
  f_equal.
  rewrite (length_filter_split
             (fun r => (Reports.status r =? "pending")%string)
             (fun r => (Reports.status r =? "in_progress")%string
                       || (Reports.status r =? "resolved")%string)).
  - rewrite (length_filter_split
               (fun r => (Reports.status r =? "in_progress")%string)
               (fun r => (Reports.status r =? "resolved")%string)); [lia |].
    intros r. destruct (String.eqb_spec (Reports.status r) "in_progress") as [-> |];
      reflexivity.
  - intros r. destruct (String.eqb_spec (Reports.status r) "pending") as [-> |];
      reflexivity.
Qed.

(** X21.  The colour of a report on the map and the colour of its badge in
    the list are the same for every status except pending, in_progress and
    rejected. *)
Theorem marker_and_badge_colors (status : string) :
  getMarkerColor status = Reports.getStatusColor status
  <-> ~ In status ["pending"; "in_progress"; "rejected"]%string.
Proof.
  unfold getMarkerColor, Reports.getStatusColor. cbn [In].
  destruct (String.eqb_spec status "pending") as [-> | Hp].
  { split; [discriminate | intros H; exfalso; apply H; left; reflexivity]. }
  destruct (String.eqb_spec status "in_progress") as [-> | Hi].
  { split; [discriminate | intros H; exfalso; apply H; right; left; reflexivity]. }
  destruct (String.eqb_spec status "resolved") as [-> | Hr].
  { split; [| reflexivity]. intros _ [H | [H | [H | []]]]; discriminate. }
  destruct (String.eqb_spec status "rejected") as [-> | Hj].
  { split; [discriminate |].
    intros H; exfalso; apply H; right; right; left; reflexivity. }
  split; [| reflexivity].
  intros _ [H | [H | [H | []]]]; congruence.
Qed.

(** X22.  The icon of an issue type on the camera screen is the icon the
    reports list shows for it, for every issue type except traffic. *)
Theorem issue_icons (issue : Camera.IssueType) :
  In issue Camera.issueTypes ->
  (Reports.getTypeIcon (Camera.id issue) = Camera.icon issue
   <-> Camera.id issue <> "traffic"%string).
Proof.
  intros Hin. cbn [Camera.issueTypes In] in Hin.
  repeat (destruct Hin as [<- | Hin]);
    try (split; [intros _; discriminate | reflexivity]);
    try (split; [discriminate | intros H; exfalso; apply H; reflexivity]).
  destruct Hin.
Qed.

(** The pothole on both screens. *)
Lemma issue_icons_witness :
  Reports.getTypeIcon "pothole" = "car"%string <-> "pothole"%string <> "traffic"%string.
Proof.
  apply (@issue_icons
           {| Camera.id := "pothole"; Camera.name := "Pothole";
              Camera.icon := "car"; Camera.color := "#e74c3c" |}).
  left. reflexivity.
Defined.

(** ** The report form *)

Lemma trimStart_nil (s : Camera.jsstring) :
  Camera.trimStart s = [] <-> Forall (fun c => Camera.isWhiteSpace c = true) s.
Proof.
  induction s as [| c s IH]; cbn [Camera.trimStart].
  - split; constructor.
  - destruct (Camera.isWhiteSpace c) eqn:E.
    + rewrite IH. split; [intros H; constructor; assumption |].
      intros H. inversion H; assumption.
    + split; [discriminate |]. intros H. inversion H; congruence.
Qed.

Lemma trimStart_head (s : Camera.jsstring) (c : N) (rest : Camera.jsstring) :
  Camera.trimStart s = c :: rest -> Camera.isWhiteSpace c = false.
Proof.
  induction s as [| d s IH]; cbn [Camera.trimStart]; [discriminate |].
  destruct (Camera.isWhiteSpace d) eqn:E; [exact IH |].
  intros H. injection H as <- _. exact E.
Qed.

Lemma trim_nil (s : Camera.jsstring) :
  Camera.trim s = [] <-> Forall (fun c => Camera.isWhiteSpace c = true) s.
Proof.
  unfold Camera.trim, Camera.trimEnd. split.
  - intros H. apply trimStart_nil.
    destruct (Camera.trimStart s) as [| c rest] eqn:E; [reflexivity |].
    exfalso.
    assert (Hend : Camera.trimStart (rev (c :: rest)) = []).
    { destruct (Camera.trimStart (rev (c :: rest))) as [| d l]; [reflexivity |].
      cbn [rev] in H. apply app_eq_nil in H. destruct H as [_ H]. discriminate. }
    clear H. rename Hend into H.
    apply trimStart_nil in H. apply Forall_rev in H.
    rewrite rev_involutive in H. inversion H as [| ? ? Hc _]; subst.
    rewrite (trimStart_head _ E) in Hc. discriminate.
  - intros H. apply trimStart_nil in H. rewrite H. reflexivity.
Qed.

Lemma whiteSpace_or_not (s : Camera.jsstring) :
  Forall (fun c => Camera.isWhiteSpace c = true) s
  \/ Exists (fun c => Camera.isWhiteSpace c = false) s.
Proof.
  induction s as [| c s [IH | IH]].
  - left. constructor.
  - destruct (Camera.isWhiteSpace c) eqn:E.
    + left. constructor; assumption.
    + right. apply Exists_cons_hd. exact E.
  - right. apply Exists_cons_tl. exact IH.
Qed.

(** X23.  The form is submitted exactly when it has a photo whose address is
    not empty, an issue type, and a description with a code unit that is not
    white space; otherwise the alert names the first of the three that is
    missing, and the submission does not start. *)
Theorem submitReport_validation (s : Camera.state) :
  match Camera.submitReport s with
  | inr started =>
      started = Camera.setIsSubmitting true s
      /\ Camera.noPhoto (Camera.photo s) = false
      /\ Camera.selectedIssueType s <> []
      /\ Exists (fun c => Camera.isWhiteSpace c = false) (Camera.description s)
  | inl a =>
      (Camera.alertTitle a = "Missing Photo"%string
       /\ Camera.noPhoto (Camera.photo s) = true)
      \/ (Camera.alertTitle a = "Missing Issue Type"%string
          /\ Camera.noPhoto (Camera.photo s) = false
          /\ Camera.selectedIssueType s = [])
      \/ (Camera.alertTitle a = "Missing Description"%string
          /\ Camera.noPhoto (Camera.photo s) = false
          /\ Camera.selectedIssueType s <> []
          /\ Forall (fun c => Camera.isWhiteSpace c = true) (Camera.description s))
  end.
Proof.
  unfold Camera.submitReport.
  destruct (Camera.noPhoto (Camera.photo s)) eqn:Ephoto.
  { left. split; reflexivity. }
  destruct (Camera.selectedIssueType s) as [| t ts] eqn:Etype; cbn [Camera.isEmpty].
  { right; left. repeat split. }
  destruct (Camera.trim (Camera.description s)) as [| c rest] eqn:Etrim.
  - right; right. repeat split; [discriminate |].
    apply trim_nil. exact Etrim.
  - repeat split; [discriminate |].
    destruct (whiteSpace_or_not (Camera.description s)) as [Hall | Hex];
      [| exact Hex].
    apply trim_nil in Hall. congruence.
Qed.

(** X24.  A whole submission: whatever the form holds when the wait ends,
    after the success alert is acknowledged the form is empty and idle, the
    camera settings are as they were, and pressing Submit again only raises
    the alert for the missing photo. *)
Theorem submitted_then_reset (s : Camera.state) :
  let (a, idle) := Camera.submitted s in
  let cleared := Camera.pressOK a idle in
  Camera.photo cleared = None
  /\ Camera.selectedIssueType cleared = []
  /\ Camera.description cleared = []
  /\ Camera.isSubmitting cleared = false
  /\ Camera.facing cleared = Camera.facing s
  /\ Camera.showCamera cleared = Camera.showCamera s
  /\ exists again,
       Camera.submitReport cleared = inl again
       /\ Camera.alertTitle again = "Missing Photo"%string.
Proof.
  cbn. repeat split. eexists. split; reflexivity.
Qed.

(** A filled form starts a submission. *)
Example filledForm_submitted :
  Camera.submitReport Camera.filledForm
  = inr (Camera.setIsSubmitting true Camera.filledForm).
Proof. reflexivity. Qed.
